(** * nxbt controller mapper: a shallow embedding of [controller_mapper.py]

    The class [ControllerMapper] reads events of a physical gamepad (package
    [inputs]) and turns them into the input packet of a virtual Nintendo
    Switch controller (package [nxbt]).  The embedding keeps the object's
    attributes in a record, threads it together with a trace of the calls
    made to the outside world through a state-and-exception monad, and models
    Python's float arithmetic with the kernel's binary64 floats. *)

From Stdlib Require Import ZArith SpecFloat.
From Stdlib Require PrimFloat FloatOps.
From stdpp Require Import gmap strings list.

Open Scope Z_scope.

(** ** Python exceptions and the monad of method bodies *)

(** [except Exception] catches the classes deriving from [Exception]; the
    remaining ones ([KeyboardInterrupt], [SystemExit], ...) derive from
    [BaseException] only. *)
Inductive exn :=
| Exception (cls msg : string)
| BaseException (cls msg : string).

Definition is_Exception (e : exn) : bool :=
  match e with Exception _ _ => true | BaseException _ _ => false end.

Definition ConnectionError (msg : string) : exn := Exception "ConnectionError" msg.
Definition OverflowError (msg : string) : exn := Exception "OverflowError" msg.
Definition ValueError (msg : string) : exn := Exception "ValueError" msg.

Inductive outcome (T : Type) :=
| Return (v : T)
| Raise (e : exn).
Arguments Return {T} v.
Arguments Raise {T} e.

(** A method body: it may mutate the state and then returns or raises; what
    it mutated before raising stays mutated. *)
Definition M (S T : Type) : Type := S -> outcome T * S.

Definition ret {S T} (v : T) : M S T := fun s => (Return v, s).
Definition raise {S T} (e : exn) : M S T := fun s => (Raise e, s).
Definition bind {S T U} (c : M S T) (k : T -> M S U) : M S U :=
  fun s => match c s with
           | (Return v, s') => k v s'
           | (Raise e, s') => (Raise e, s')
           end.
Definition lift {S T} (o : outcome T) : M S T := fun s => (o, s).

Notation "x <- c ;; k" := (bind c (fun x => k))
  (at level 100, c at next level, right associativity).
Notation "c ;; k" := (bind c (fun _ => k))
  (at level 100, right associativity).

Definition when {S} (b : bool) (c : M S unit) : M S unit :=
  if b then c else ret tt.

(** ** Python floats

    [float] is IEEE 754 binary64, the kernel's primitive [float].
    [truediv a b] is [a / b] on two [int]s and [mul_int f n] is [f * n]; the
    conversion of the operands is exact for the integers below 2^53 in
    absolute value, which covers the 32-bit [value] field of an evdev event.
    [to_int] is [int(f)]: truncation toward zero, an error on infinities and
    NaN. *)
Module Float.
Definition of_int (n : Z) : PrimFloat.float :=
  FloatOps.SF2Prim (binary_normalize FloatOps.prec FloatOps.emax n 0 false).

Definition truediv (a b : Z) : PrimFloat.float :=
  PrimFloat.div (of_int a) (of_int b).

Definition mul_int (f : PrimFloat.float) (n : Z) : PrimFloat.float :=
  PrimFloat.mul f (of_int n).

Definition to_int (f : PrimFloat.float) : outcome Z :=
  match FloatOps.Prim2SF f with
  | S754_zero _ => Return 0
  | S754_finite s m e =>
      let a := match e with
               | Z0 => Zpos m
               | Zpos p => Z.shiftl (Zpos m) (Zpos p)
               | Zneg p => Z.shiftr (Zpos m) (Zpos p)
               end in
      Return (if s then - a else a)
  | S754_infinity _ =>
      Raise (OverflowError "cannot convert float infinity to integer")
  | S754_nan => Raise (ValueError "cannot convert float NaN to integer")
  end.
End Float.

(** ** The input packet (Snapshot) *)

(** Modelled from the spec: the enumeration [Buttons] of the nxbt package,
    which is imported by the source and not part of it; these are the
    identifiers the spec lists and the source uses. *)
Module Buttons.
Inductive t :=
| B | A | X | Y | L | R | ZL | ZR | PLUS | MINUS | HOME
| DPAD_UP | DPAD_DOWN | DPAD_LEFT | DPAD_RIGHT.

Definition all : list t :=
  [B; A; X; Y; L; R; ZL; ZR; PLUS; MINUS; HOME;
   DPAD_UP; DPAD_DOWN; DPAD_LEFT; DPAD_RIGHT].

Definition to_nat (b : t) : nat :=
  match b with
  | B => 0 | A => 1 | X => 2 | Y => 3 | L => 4 | R => 5 | ZL => 6 | ZR => 7
  | PLUS => 8 | MINUS => 9 | HOME => 10
  | DPAD_UP => 11 | DPAD_DOWN => 12 | DPAD_LEFT => 13 | DPAD_RIGHT => 14
  end%nat.

Definition of_nat (n : nat) : option t := all !! n.

#[global] Instance eq_dec : EqDecision t.
Proof. solve_decision. Defined.

#[global] Instance countable : Countable t.
Proof. refine (inj_countable to_nat of_nat _). by intros []. Defined.
End Buttons.

(** The two sticks of the packet, keyed by ['L_STICK'] and ['R_STICK']. *)
Inductive Sticks := L_STICK | R_STICK.

Record stick := { X_VALUE : Z; Y_VALUE : Z }.

Record input_packet := {
  buttons : gmap Buttons.t bool;
  l_stick : stick;
  r_stick : stick;
}.

Definition get_stick (p : input_packet) (s : Sticks) : stick :=
  match s with L_STICK => l_stick p | R_STICK => r_stick p end.

(** [packet[button] = pressed] *)
Definition set_button (b : Buttons.t) (pressed : bool) (p : input_packet) : input_packet :=
  {| buttons := <[b := pressed]> (buttons p);
     l_stick := l_stick p; r_stick := r_stick p |}.

Definition set_stick (s : Sticks) (v : stick) (p : input_packet) : input_packet :=
  match s with
  | L_STICK => {| buttons := buttons p; l_stick := v; r_stick := r_stick p |}
  | R_STICK => {| buttons := buttons p; l_stick := l_stick p; r_stick := v |}
  end.

(** [packet[stick_name]['X_VALUE'] = value] *)
Definition set_X_VALUE (s : Sticks) (value : Z) (p : input_packet) : input_packet :=
  set_stick s {| X_VALUE := value; Y_VALUE := Y_VALUE (get_stick p s) |} p.

(** [packet[stick_name]['Y_VALUE'] = value] *)
Definition set_Y_VALUE (s : Sticks) (value : Z) (p : input_packet) : input_packet :=
  set_stick s {| X_VALUE := X_VALUE (get_stick p s); Y_VALUE := value |} p.

(** Modelled from the spec: [Nxbt.create_input_packet] of the nxbt package,
    not in src; a newly constructed Snapshot has all buttons released and
    both sticks centered. *)
Definition create_input_packet : input_packet :=
  {| buttons := list_to_map ((fun b => (b, false)) <$> Buttons.all);
     l_stick := {| X_VALUE := 0; Y_VALUE := 0 |};
     r_stick := {| X_VALUE := 0; Y_VALUE := 0 |} |}.

(** ** The virtual controller endpoint and the outside world *)

(** What [nx.state[idx]] holds when it is read. *)
Record report := { lifecycle : string; errors : string }.

(** Modelled from the spec: the virtual controller endpoint (class [Nxbt] of
    the nxbt package, not in src), as a scripted fake: the index it hands
    out, the state entry it shows at the n-th read, and whether it rejects
    the n-th input it is sent. *)
Module Nxbt.
Record t := {
  create_controller : Z -> Z;
  state : Z -> nat -> report;
  set_controller_input : nat -> option Z -> input_packet -> option exn;
}.
End Nxbt.

(** One raw event of the [inputs] package. *)
Record Event := { ev_type : string; code : string; state : Z }.

(** The calls that leave the object, in the order they are made.  Sleeps
    carry their duration in milliseconds; of a debug message only the kind
    of update it reports is kept. *)
Inductive effect :=
| Create_controller (controller_type idx : Z)
| Set_controller_input (idx : option Z) (packet : input_packet)
| Remove_controller (idx : Z)
| Sleep (ms : Z)
| Print_event (event : Event)
| Print (line : string)
| Logger_debug (what : string)
| Logger_error (e : exn)
| Thread_start
| Thread_join.

(** ** The object *)

Inductive Thread := input_loop_thread.

Record ControllerMapper := {
  debug : bool;
  test_mode : bool;
  nx : Nxbt.t;
  controller_idx : option Z;
  button_mappings : gmap string Buttons.t;
  stick_mappings : gmap string (Sticks * string);
  trigger_mappings : gmap string Buttons.t;
  current_input : input_packet;
  running : bool;
  input_thread : option Thread;
}.

Definition with_controller_idx (v : option Z) (m : ControllerMapper) :=
  {| debug := debug m; test_mode := test_mode m; nx := nx m;
     controller_idx := v;
     button_mappings := button_mappings m; stick_mappings := stick_mappings m;
     trigger_mappings := trigger_mappings m; current_input := current_input m;
     running := running m; input_thread := input_thread m |}.

Definition with_current_input (v : input_packet) (m : ControllerMapper) :=
  {| debug := debug m; test_mode := test_mode m; nx := nx m;
     controller_idx := controller_idx m;
     button_mappings := button_mappings m; stick_mappings := stick_mappings m;
     trigger_mappings := trigger_mappings m; current_input := v;
     running := running m; input_thread := input_thread m |}.

Definition with_running (v : bool) (m : ControllerMapper) :=
  {| debug := debug m; test_mode := test_mode m; nx := nx m;
     controller_idx := controller_idx m;
     button_mappings := button_mappings m; stick_mappings := stick_mappings m;
     trigger_mappings := trigger_mappings m; current_input := current_input m;
     running := v; input_thread := input_thread m |}.

Definition with_input_thread (v : option Thread) (m : ControllerMapper) :=
  {| debug := debug m; test_mode := test_mode m; nx := nx m;
     controller_idx := controller_idx m;
     button_mappings := button_mappings m; stick_mappings := stick_mappings m;
     trigger_mappings := trigger_mappings m; current_input := current_input m;
     running := running m; input_thread := v |}.

(** The object together with what it has done to the outside so far (oldest
    call first). *)
Record world := { self : ControllerMapper; trace : list effect }.

Definition get : M world ControllerMapper := fun w => (Return (self w), w).

Definition modify (f : ControllerMapper -> ControllerMapper) : M world unit :=
  fun w => (Return tt, {| self := f (self w); trace := trace w |}).

Definition emit (e : effect) : M world unit :=
  fun w => (Return tt, {| self := self w; trace := trace w ++ [e] |}).

(** [self.current_input[...] = ...] *)
Definition assign (f : input_packet -> input_packet) : M world unit :=
  modify (fun m => with_current_input (f (current_input m)) m).

Definition is_push (e : effect) : bool :=
  match e with Set_controller_input _ _ => true | _ => false end.

Definition pushes (tr : list effect) : list effect := filter is_push tr.

(** [self.nx.set_controller_input(self.controller_idx, self.current_input)]:
    the call is made, and the endpoint may reject it. *)
Definition push : M world unit :=
  fun w =>
    let m := self w in
    let n := length (pushes (trace w)) in
    let w' := {| self := m;
                 trace := trace w ++ [Set_controller_input (controller_idx m) (current_input m)] |} in
    match Nxbt.set_controller_input (nx m) n (controller_idx m) (current_input m) with
    | Some e => (Raise e, w')
    | None => (Return tt, w')
    end.

(** [__init__]; the endpoint is the one the constructor builds. *)
Definition init (debug test_mode : bool) (nx : Nxbt.t) : ControllerMapper :=
  {| debug := debug;
     test_mode := test_mode;
     nx := nx;
     controller_idx := None;
     button_mappings :=
       list_to_map
         [("BTN_SOUTH", Buttons.B); ("BTN_EAST", Buttons.A);
          ("BTN_NORTH", Buttons.X); ("BTN_WEST", Buttons.Y);
          ("BTN_TL", Buttons.L); ("BTN_TR", Buttons.R);
          ("BTN_TL2", Buttons.ZL); ("BTN_TR2", Buttons.ZR);
          ("BTN_START", Buttons.PLUS); ("BTN_SELECT", Buttons.MINUS);
          ("BTN_MODE", Buttons.HOME)];
     stick_mappings :=
       list_to_map
         [("ABS_X", (L_STICK, "x")); ("ABS_Y", (L_STICK, "y"));
          ("ABS_RX", (R_STICK, "x")); ("ABS_RY", (R_STICK, "y"))];
     trigger_mappings :=
       list_to_map [("ABS_Z", Buttons.ZL); ("ABS_RZ", Buttons.ZR)];
     current_input := create_input_packet;
     running := false;
     input_thread := None |}.

(** ** [_process_gamepad_event] *)

Definition _process_gamepad_event (event : Event) : M world unit :=
  m <- get ;;
  if test_mode m then
    emit (Print_event event)
  else if bool_decide (ev_type event = "Key") then
    match button_mappings m !! code event with
    | Some nxbt_button =>
        assign (set_button nxbt_button (state event =? 1)) ;;
        when (debug m) (emit (Logger_debug "Button")) ;;
        push
    | None => ret tt
    end
  else if bool_decide (ev_type event = "Absolute") then
    match trigger_mappings m !! code event with
    | Some button =>
        value <- lift (Float.to_int (Float.mul_int (Float.truediv (state event) 255) 100)) ;;
        assign (set_button button (value >? 50)) ;;
        when (debug m) (emit (Logger_debug "Trigger")) ;;
        push
    | None =>
        if bool_decide (code event = "ABS_HAT0X") then
          assign (set_button Buttons.DPAD_LEFT (state event =? -1)) ;;
          assign (set_button Buttons.DPAD_RIGHT (state event =? 1)) ;;
          when (debug m) (emit (Logger_debug "D-pad X"))
        else if bool_decide (code event = "ABS_HAT0Y") then
          assign (set_button Buttons.DPAD_UP (state event =? -1)) ;;
          assign (set_button Buttons.DPAD_DOWN (state event =? 1)) ;;
          when (debug m) (emit (Logger_debug "D-pad Y"))
        else
          match stick_mappings m !! code event with
          | Some (stick_name, axis) =>
              value <- lift (Float.to_int (Float.mul_int (Float.truediv (state event) 32767) 100)) ;;
              let value := if bool_decide (axis = "y") then - value else value in
              (if bool_decide (axis = "x")
               then assign (set_X_VALUE stick_name value)
               else assign (set_Y_VALUE stick_name value)) ;;
              when (debug m) (emit (Logger_debug "Stick")) ;;
              push
          | None => ret tt
          end
    end
  else ret tt.

(** ** [connect_controller] *)

(** A loop of the source that the model runs with fuel either finishes or is
    still going when the fuel is spent. *)
Inductive fueled (T : Type) :=
| Done (v : T)
| Out_of_fuel.
Arguments Done {T} v.
Arguments Out_of_fuel {T}.

(** The [while True] of [connect_controller], at its n-th read of the
    endpoint's state entry; [asyncio.sleep(0.1)] between two reads. *)
Fixpoint wait_for_connection (fuel n : nat) : M world (fueled Z) :=
  match fuel with
  | O => ret Out_of_fuel
  | S fuel' =>
      m <- get ;;
      match controller_idx m with
      | None => raise (Exception "KeyError" "None")
      | Some idx =>
          let entry := Nxbt.state (nx m) idx n in
          if bool_decide (lifecycle entry = "connected") then
            ret (Done idx)
          else if bool_decide (lifecycle entry = "crashed") then
            raise (ConnectionError ("Controller failed to connect: " +:+ errors entry))
          else
            emit (Sleep 100) ;;
            wait_for_connection fuel' (S n)
      end
  end.

Definition connect_controller (fuel : nat) (controller_type : Z) : M world (fueled Z) :=
  m <- get ;;
  if negb (test_mode m) then
    let idx := Nxbt.create_controller (nx m) controller_type in
    emit (Create_controller controller_type idx) ;;
    modify (with_controller_idx (Some idx)) ;;
    wait_for_connection fuel 0
  else ret (Done 0).

(** ** [_input_loop] *)

(** What one call of [inputs.get_gamepad()] does: it yields events or
    raises. *)
Inductive pull :=
| Events (events : list Event)
| Pull_raises (e : exn).

Definition get_gamepad (p : pull) : M world (list Event) :=
  match p with
  | Events events => ret events
  | Pull_raises e => raise e
  end.

(** [for event in events: self._process_gamepad_event(event)] *)
Fixpoint for_each_event (events : list Event) : M world unit :=
  match events with
  | [] => ret tt
  | event :: events' => _process_gamepad_event event ;; for_each_event events'
  end.

(** [try: body  except Exception as e: handler] *)
Definition try_except_Exception {T} (body : M world T) (handler : exn -> M world T) : M world T :=
  fun w =>
    match body w with
    | (Raise e, w') => if is_Exception e then handler e w' else (Raise e, w')
    | r => r
    end.

(** The [try] block of the loop: one pull/apply cycle. *)
Definition pull_and_apply (p : pull) : M world unit :=
  events <- get_gamepad p ;;
  for_each_event events.

(** The body of the [while self.running] loop: the cycle under its handler,
    which logs the error and sleeps 100 ms. *)
Definition input_loop_iteration (p : pull) : M world unit :=
  try_except_Exception
    (pull_and_apply p)
    (fun e => emit (Logger_error e) ;; emit (Sleep 100)).

(** The worker leaves [_input_loop] when it reads [running] as false; it
    sits in [get_gamepad] when the scripted device has nothing more. *)
Inductive loop_exit := Stopped | Blocked_in_pull.

Fixpoint _input_loop (device : list pull) : M world loop_exit :=
  m <- get ;;
  if running m then
    match device with
    | [] => ret Blocked_in_pull
    | p :: device' => input_loop_iteration p ;; _input_loop device'
    end
  else ret Stopped.

(** ** Starting, stopping and cleaning up *)

Definition start_input_processing : M world unit :=
  m <- get ;;
  match input_thread m with
  | Some _ => ret tt
  | None =>
      modify (with_running true) ;;
      modify (with_input_thread (Some input_loop_thread)) ;;
      emit Thread_start
  end.

(** [join] is taken to return: the worker has seen [running] false. *)
Definition stop_input_processing : M world unit :=
  modify (with_running false) ;;
  m <- get ;;
  match input_thread m with
  | Some _ => emit Thread_join ;; modify (with_input_thread None)
  | None => ret tt
  end.

Definition cleanup : M world unit :=
  stop_input_processing ;;
  m <- get ;;
  match controller_idx m with
  | Some idx => emit (Remove_controller idx)
  | None => ret tt
  end.

(** [try: body  finally: final], for a body that ends. *)
Definition try_finally {T} (body : M world T) (final : M world unit) : M world T :=
  fun w =>
    match body w with
    | (r, w') =>
        match final w' with
        | (Return _, w'') => (r, w'')
        | (Raise e, w'') => (Raise e, w'')
        end
    end.

Definition is_KeyboardInterrupt (e : exn) : bool :=
  match e with
  | BaseException cls _ => bool_decide (cls = "KeyboardInterrupt")
  | Exception _ _ => false
  end.

(** [main] up to its idle loop: when the [try] block gets as far as the
    idle loop the model stops there ([Done], the [finally] not yet run);
    when it raises, [KeyboardInterrupt] is caught and answered with a line
    on the terminal, any other exception goes on, and [finally] runs
    [cleanup] in both cases. *)
Definition main_startup (fuel : nat) (controller_type : Z) : M world (fueled unit) :=
  fun w =>
    let try_block : M world (fueled unit) :=
      m <- get ;;
      connected <-
        (if negb (test_mode m) then
           r <- connect_controller fuel controller_type ;;
           match r with
           | Done _ => emit (Print "Controller connected!") ;; ret (Done tt)
           | Out_of_fuel => ret Out_of_fuel
           end
         else
           emit (Print "Running in test mode - showing raw controller inputs") ;;
           emit (Print "Press Ctrl+C to exit") ;;
           ret (Done tt)) ;;
      match connected with
      | Done _ =>
          start_input_processing ;;
          emit (Print "Input processing started. Press Ctrl+C to exit.") ;;
          ret (Done tt)
      | Out_of_fuel => ret Out_of_fuel
      end in
    match try_block w with
    | (Raise e, w') =>
        if is_KeyboardInterrupt e
        then try_finally (emit (Print "Exiting...") ;; ret (Done tt)) cleanup w'
        else try_finally (raise e) cleanup w'
    | r => r
    end.

(** The number of input workers that have been started and not joined. *)
Fixpoint live_workers (tr : list effect) (n : nat) : nat :=
  match tr with
  | [] => n
  | Thread_start :: tr' => live_workers tr' (S n)
  | Thread_join :: tr' => live_workers tr' (pred n)
  | _ :: tr' => live_workers tr' n
  end.

(** The calls the lifecycle shell makes on the object. *)
Inductive call :=
| Call_start
| Call_stop
| Call_cleanup
| Call_process (event : Event).

Definition do_call (c : call) : M world unit :=
  match c with
  | Call_start => start_input_processing
  | Call_stop => stop_input_processing
  | Call_cleanup => cleanup
  | Call_process event => _process_gamepad_event event
  end.

(** The state after a method call, whether it returned or raised. *)
Definition exec {T} (c : M world T) (w : world) : world := snd (c w).

Definition new_world (m : ControllerMapper) : world := {| self := m; trace := [] |}.

(** The spec's rounding: the integer nearest to [n / d], for [d > 0].  A
    tie would go up; with the odd divisors 255 and 32767 there is none. *)
Definition round_div (n d : Z) : Z := (2 * n + d) / (2 * d).

Definition clamp (lo hi v : Z) : Z := Z.max lo (Z.min hi v).

(** A fake endpoint for the examples: it hands out index 0, shows
    ["connecting"] twice and then the given entry, and accepts every
    input. *)
Definition fake_nx (final : report) : Nxbt.t :=
  {| Nxbt.create_controller := fun _ => 0;
     Nxbt.state := fun _ n =>
       if (n <? 2)%nat then {| lifecycle := "connecting"; errors := "" |} else final;
     Nxbt.set_controller_input := fun _ _ _ => None |}.

(** A fake endpoint that rejects every input it is sent. *)
Definition rejecting_nx : Nxbt.t :=
  {| Nxbt.create_controller := fun _ => 0;
     Nxbt.state := fun _ _ => {| lifecycle := "connected"; errors := "" |};
     Nxbt.set_controller_input := fun _ _ _ =>
       Some (Exception "RuntimeError" "controller is not connected") |}.

Definition connected : report := {| lifecycle := "connected"; errors := "" |}.

Definition started_mapper : world := new_world (init false false (fake_nx connected)).

(** * Definitions used to state the properties *)

(** [int((state / d) * 100)] as the source writes it. *)
Definition scaled (state d : Z) : outcome Z :=
  Float.to_int (Float.mul_int (Float.truediv state d) 100).

(** The outcome is a return of [v]. *)
Definition outcome_is (o : outcome Z) (v : Z) : bool :=
  match o with Return r => r =? v | Raise _ => false end.

(** [P] on the [n] integers from [lo] upwards. *)
Fixpoint holds_from (P : Z -> bool) (lo : Z) (n : nat) : bool :=
  match n with
  | O => true
  | S n' => P lo && holds_from P (lo + 1) n'
  end.

(** The packet after an event, as a function of the object and the event:
    what the assignments of [_process_gamepad_event] leave behind. *)
Definition packet_after (m : ControllerMapper) (event : Event) : input_packet :=
  let p := current_input m in
  if test_mode m then p
  else if bool_decide (ev_type event = "Key") then
    match button_mappings m !! code event with
    | Some b => set_button b (state event =? 1) p
    | None => p
    end
  else if bool_decide (ev_type event = "Absolute") then
    match trigger_mappings m !! code event with
    | Some b =>
        match scaled (state event) 255 with
        | Return value => set_button b (value >? 50) p
        | Raise _ => p
        end
    | None =>
        if bool_decide (code event = "ABS_HAT0X") then
          set_button Buttons.DPAD_RIGHT (state event =? 1)
            (set_button Buttons.DPAD_LEFT (state event =? -1) p)
        else if bool_decide (code event = "ABS_HAT0Y") then
          set_button Buttons.DPAD_DOWN (state event =? 1)
            (set_button Buttons.DPAD_UP (state event =? -1) p)
        else
          match stick_mappings m !! code event with
          | Some (stick_name, axis) =>
              match scaled (state event) 32767 with
              | Return value =>
                  let value := if bool_decide (axis = "y") then - value else value in
                  if bool_decide (axis = "x")
                  then set_X_VALUE stick_name value p
                  else set_Y_VALUE stick_name value p
              | Raise _ => p
              end
          | None => p
          end
    end
  else p.

(** Whether the event reaches a call of [set_controller_input]. *)
Definition pushing (m : ControllerMapper) (event : Event) : bool :=
  if test_mode m then false
  else if bool_decide (ev_type event = "Key") then
    bool_decide (is_Some (button_mappings m !! code event))
  else if bool_decide (ev_type event = "Absolute") then
    match trigger_mappings m !! code event with
    | Some _ =>
        match scaled (state event) 255 with Return _ => true | Raise _ => false end
    | None =>
        if bool_decide (code event = "ABS_HAT0X") then false
        else if bool_decide (code event = "ABS_HAT0Y") then false
        else
          match stick_mappings m !! code event with
          | Some _ =>
              match scaled (state event) 32767 with Return _ => true | Raise _ => false end
          | None => false
          end
    end
  else false.

(** The value the code stores for native value [v] on an axis: the quotient
    v * 100 / 32767 truncated toward zero, negated on the ["y"] axis. *)
Definition truncated_axis_value (axis : string) (v : Z) : Z :=
  let q := Z.quot (v * 100) 32767 in
  if bool_decide (axis = "y") then - q else q.

(** The value the spec words: rounded to nearest, clamped, negated on
    ["y"]. *)
Definition rounded_axis_value (axis : string) (v : Z) : Z :=
  let r := clamp (-100) 100 (round_div (v * 100) 32767) in
  if bool_decide (axis = "y") then - r else r.

(** The index the endpoint hands out. *)
Definition created_idx (w : world) (controller_type : Z) : Z :=
  Nxbt.create_controller (nx (self w)) controller_type.

(** The state entry the endpoint shows for that index at the i-th read. *)
Definition entry (w : world) (controller_type : Z) (i : nat) : report :=
  Nxbt.state (nx (self w)) (created_idx w controller_type) i.

(** An entry on which [connect_controller] keeps waiting. *)
Definition undecided (r : report) : Prop :=
  lifecycle r <> "connected" /\ lifecycle r <> "crashed".

(** The world once [connect_controller] has created the session and slept
    through [k] undecided reads. *)
Definition polled (w : world) (controller_type : Z) (k : nat) : world :=
  {| self := with_controller_idx (Some (created_idx w controller_type)) (self w);
     trace := trace w ++ Create_controller controller_type (created_idx w controller_type)
                :: replicate k (Sleep 100) |}.

(** What the handler leaves: the error logged, then a sleep of 100 ms. *)
Definition handled (e : exn) (w : world) : world :=
  {| self := self w; trace := trace w ++ [Logger_error e; Sleep 100] |}.

(** A run of lifecycle calls, each on the state the one before left (whether
    it returned or raised). *)
Fixpoint run_calls (calls : list call) (w : world) : world :=
  match calls with
  | [] => w
  | c :: calls' => run_calls calls' (exec (do_call c) w)
  end.

(** The workers the object holds: one when [input_thread] is set. *)
Definition worker_count (m : ControllerMapper) : nat :=
  match input_thread m with Some _ => 1 | None => 0 end.

(** The workers alive are the one the object holds, if it holds one. *)
Definition worker_invariant (w : world) : Prop :=
  live_workers (trace w) 0 = worker_count (self w).

(** Opposite directions of the d-pad are not both pressed. *)
Definition dpad_exclusive (p : input_packet) : Prop :=
  ~ (buttons p !! Buttons.DPAD_LEFT = Some true /\ buttons p !! Buttons.DPAD_RIGHT = Some true)
  /\ ~ (buttons p !! Buttons.DPAD_UP = Some true /\ buttons p !! Buttons.DPAD_DOWN = Some true).

Definition is_dpad (b : Buttons.t) : bool :=
  match b with
  | Buttons.DPAD_UP | Buttons.DPAD_DOWN | Buttons.DPAD_LEFT | Buttons.DPAD_RIGHT => true
  | _ => false
  end.

(** The tables of [__init__] send no button or trigger to the d-pad. *)
Definition default_tables (m : ControllerMapper) : Prop :=
  (forall c b, button_mappings m !! c = Some b -> is_dpad b = false)
  /\ (forall c b, trigger_mappings m !! c = Some b -> is_dpad b = false).

(** The scenario of the spec's end-to-end property: two button presses, an
    axis move, a trigger pulled past the threshold and an unmapped event. *)
Definition scripted_events : list Event :=
  [ {| ev_type := "Key"; code := "BTN_EAST"; state := 1 |};
    {| ev_type := "Key"; code := "BTN_TL"; state := 1 |};
    {| ev_type := "Absolute"; code := "ABS_X"; state := 32767 |};
    {| ev_type := "Absolute"; code := "ABS_RZ"; state := 255 |};
    {| ev_type := "Key"; code := "BTN_THUMBR"; state := 1 |} ].

(** ** Further definitions, for the properties beyond the claims *)

(** The endpoint accepts every input it is sent. *)
Definition accepts_all (endpoint : Nxbt.t) : Prop :=
  forall n idx p, Nxbt.set_controller_input endpoint n idx p = None.

(** The calls that reach the endpoint. *)
Definition is_endpoint_call (e : effect) : bool :=
  match e with
  | Create_controller _ _ | Set_controller_input _ _ | Remove_controller _ => true
  | _ => false
  end.

Definition endpoint_calls (tr : list effect) : list effect := filter is_endpoint_call tr.

(** The signed 16-bit range of an evdev axis. *)
Definition in_int16 (v : Z) : Prop := -32768 <= v <= 32767.

Definition other_stick (s : Sticks) : Sticks :=
  match s with L_STICK => R_STICK | R_STICK => L_STICK end.

(** All four axis values lie in [-100, 100]. *)
Definition sticks_bounded (p : input_packet) : Prop :=
  (-100 <= X_VALUE (l_stick p) <= 100 /\ -100 <= Y_VALUE (l_stick p) <= 100)
  /\ (-100 <= X_VALUE (r_stick p) <= 100 /\ -100 <= Y_VALUE (r_stick p) <= 100).

(** The native value a call brings, if it brings one, is in the 16-bit
    range. *)
Definition call_in_int16 (c : call) : Prop :=
  match c with
  | Call_process event => in_int16 (state event)
  | _ => True
  end.

(** The object with its debug flag set to [v]. *)
Definition with_debug (v : bool) (m : ControllerMapper) : ControllerMapper :=
  {| debug := v; test_mode := test_mode m; nx := nx m;
     controller_idx := controller_idx m;
     button_mappings := button_mappings m; stick_mappings := stick_mappings m;
     trigger_mappings := trigger_mappings m; current_input := current_input m;
     running := running m; input_thread := input_thread m |}.

(** The running flag is set exactly while the object holds a worker. *)
Definition flag_matches_worker (m : ControllerMapper) : Prop :=
  running m = true <-> is_Some (input_thread m).

(** What [__init__] fixes and no method may change: the two modes, the
    endpoint and the three tables. *)
Definition same_configuration (m m' : ControllerMapper) : Prop :=
  debug m' = debug m /\ test_mode m' = test_mode m /\ nx m' = nx m
  /\ button_mappings m' = button_mappings m
  /\ stick_mappings m' = stick_mappings m
  /\ trigger_mappings m' = trigger_mappings m.

(** The conversion did not raise. *)
Definition returns (o : outcome Z) : bool :=
  match o with Return _ => true | Raise _ => false end.

(** The events of a batch that reach a call of [set_controller_input]. *)
Definition pushing_events (m : ControllerMapper) (events : list Event) : list Event :=
  filter (fun event => pushing m event) events.

(** * Properties *)

(** ** The two scalings *)

Lemma outcome_is_spec o v : outcome_is o v = true -> o = Return v.
Proof.
  destruct o as [r|e]; simpl; [|done].
  intros H. apply Z.eqb_eq in H. by subst.
Qed.

Lemma holds_from_spec P n : forall lo,
  holds_from P lo n = true -> forall v, lo <= v < lo + Z.of_nat n -> P v = true.
Proof.
  induction n as [|n IH]; intros lo H v Hv; [lia|].
  simpl in H. apply andb_prop in H as [H0 H1].
  destruct (decide (v = lo)) as [->|Hne]; [done|].
  apply (IH (lo + 1)); [done|lia].
Qed.

Lemma trigger_scaled_table :
  holds_from (fun v => outcome_is (scaled v 255) (Z.quot (v * 100) 255)) 0 256 = true.
Proof. vm_cast_no_check (eq_refl true). Qed.

Lemma stick_scaled_table :
  holds_from (fun v => outcome_is (scaled v 32767) (Z.quot (v * 100) 32767))
    (-32768) (Z.to_nat 65536) = true.
Proof. vm_cast_no_check (eq_refl true). Qed.

(** On the trigger's native range the float computation is the integer
    quotient truncated toward zero. *)
Lemma trigger_scaled (v : Z) :
  0 <= v <= 255 -> scaled v 255 = Return (Z.quot (v * 100) 255).
Proof.
  intros Hv. apply outcome_is_spec.
  apply (holds_from_spec _ _ _ trigger_scaled_table). simpl. lia.
Qed.

(** The same on the signed 16-bit range of a stick axis. *)
Lemma stick_scaled (v : Z) :
  -32768 <= v <= 32767 -> scaled v 32767 = Return (Z.quot (v * 100) 32767).
Proof.
  intros Hv. apply outcome_is_spec.
  apply (holds_from_spec _ _ _ stick_scaled_table). lia.
Qed.

(** ** Running [_process_gamepad_event] *)

Ltac unfold_monad :=
  unfold exec, bind, get, assign, modify, emit, when, push, ret, raise, lift in *.

Ltac run_event :=
  unfold _process_gamepad_event; unfold_monad; simpl.

(** An event changes nothing of the object but its packet. *)
Lemma process_self (event : Event) (w : world) :
  self (exec (_process_gamepad_event event) w)
  = with_current_input (packet_after (self w) event) (self w).
Proof.
  destruct w as [m tr]. unfold packet_after, scaled. run_event.
  destruct m as [dbg tm nxv idx bm sm trm p rn th]; simpl.
  repeat (case_match; simpl in *; simplify_eq; try done).
Qed.

Lemma pushes_app (tr1 tr2 : list effect) : pushes (tr1 ++ tr2) = pushes tr1 ++ pushes tr2.
Proof. apply filter_app. Qed.

(** What an event adds to the inputs sent to the endpoint: nothing, or the
    packet as the event has left it. *)
Lemma process_pushes (event : Event) (w : world) :
  pushes (trace (exec (_process_gamepad_event event) w))
  = pushes (trace w) ++
    (if pushing (self w) event
     then [Set_controller_input (controller_idx (self w)) (packet_after (self w) event)]
     else []).
Proof.
  destruct w as [m tr]. unfold pushing, packet_after, scaled. run_event.
  destruct m as [dbg tm nxv idx bm sm trm p rn th]; simpl.
  repeat (case_match; simpl in *; simplify_eq;
          rewrite ?pushes_app, ?app_nil_r, <-?app_assoc; try done).
Qed.

Lemma with_current_input_id (m : ControllerMapper) :
  with_current_input (current_input m) m = m.
Proof. by destruct m. Qed.

(** ** Assignments overwrite *)

Lemma set_button_twice b v v' p :
  set_button b v (set_button b v' p) = set_button b v p.
Proof. unfold set_button; simpl. by rewrite insert_insert_eq. Qed.

Lemma set_button_swap b1 b2 v1 v2 p :
  b1 <> b2 ->
  set_button b1 v1 (set_button b2 v2 p) = set_button b2 v2 (set_button b1 v1 p).
Proof. intros Hne. unfold set_button; simpl. by rewrite insert_insert_ne. Qed.

Lemma set_X_VALUE_twice s v p : set_X_VALUE s v (set_X_VALUE s v p) = set_X_VALUE s v p.
Proof. by destruct s. Qed.

Lemma set_Y_VALUE_twice s v p : set_Y_VALUE s v (set_Y_VALUE s v p) = set_Y_VALUE s v p.
Proof. by destruct s. Qed.

Lemma set_pair_twice b1 b2 v1 v2 p :
  b1 <> b2 ->
  set_button b2 v2 (set_button b1 v1 (set_button b2 v2 (set_button b1 v1 p)))
  = set_button b2 v2 (set_button b1 v1 p).
Proof.
  intros Hne.
  rewrite (set_button_swap b1 b2 v1 v2 (set_button b1 v1 p)) by done.
  by rewrite set_button_twice, set_button_twice.
Qed.

(** The packet an event leaves behind is a fixed point of that event. *)
Lemma packet_after_twice (m : ControllerMapper) (event : Event) :
  packet_after (with_current_input (packet_after m event) m) event = packet_after m event.
Proof.
  unfold packet_after. simpl.
  repeat (case_match; simplify_eq; try done);
    rewrite ?set_button_twice, ?set_X_VALUE_twice, ?set_Y_VALUE_twice,
            ?set_pair_twice; done.
Qed.

(** ** Claims about the translation of one event *)

(** C7: a discrete (Key) event whose identifier is in the button map sets
    exactly the mapped button to [state == 1]; every other button and both
    sticks keep their values. *)
Theorem button_event_sets_only_that_button (w : world) (event : Event) (b : Buttons.t) :
  test_mode (self w) = false ->
  ev_type event = "Key" ->
  button_mappings (self w) !! code event = Some b ->
  current_input (self (exec (_process_gamepad_event event) w))
    = set_button b (state event =? 1) (current_input (self w))
  /\ buttons (current_input (self (exec (_process_gamepad_event event) w))) !! b
     = Some (state event =? 1)
  /\ (forall b', b' <> b ->
        buttons (current_input (self (exec (_process_gamepad_event event) w))) !! b'
        = buttons (current_input (self w)) !! b')
  /\ l_stick (current_input (self (exec (_process_gamepad_event event) w)))
     = l_stick (current_input (self w))
  /\ r_stick (current_input (self (exec (_process_gamepad_event event) w)))
     = r_stick (current_input (self w)).
Proof.
  intros Htest Hkey Hmap.
  rewrite process_self. simpl.
  unfold packet_after. rewrite Htest, Hmap, bool_decide_eq_true_2 by done.
  simpl. repeat split.
  - apply lookup_insert_eq.
  - intros b' Hne. by apply lookup_insert_ne.
Qed.

Lemma button_event_sets_only_that_button_witness :
  buttons (current_input (self (exec
    (_process_gamepad_event {| ev_type := "Key"; code := "BTN_EAST"; state := 1 |})
    started_mapper))) !! Buttons.A = Some true.
Proof.
  refine (proj1 (proj2 (button_event_sets_only_that_button started_mapper
    {| ev_type := "Key"; code := "BTN_EAST"; state := 1 |} Buttons.A _ _ _)));
    reflexivity.
Defined.

(** C8: an event whose identifier is in none of the button, trigger and
    axis maps and is neither d-pad hat identifier returns normally, leaves
    the object with its packet unchanged and sends nothing to the
    endpoint. *)
Theorem unmapped_event_is_noop (w : world) (event : Event) :
  button_mappings (self w) !! code event = None ->
  trigger_mappings (self w) !! code event = None ->
  stick_mappings (self w) !! code event = None ->
  code event <> "ABS_HAT0X" ->
  code event <> "ABS_HAT0Y" ->
  fst (_process_gamepad_event event w) = Return tt
  /\ self (exec (_process_gamepad_event event) w) = self w
  /\ current_input (self (exec (_process_gamepad_event event) w)) = current_input (self w)
  /\ pushes (trace (exec (_process_gamepad_event event) w)) = pushes (trace w)
  /\ (test_mode (self w) = false -> exec (_process_gamepad_event event) w = w).
Proof.
  intros Hb Ht Hs Hx Hy.
  assert (Hp : packet_after (self w) event = current_input (self w)).
  { unfold packet_after. rewrite Hb, Ht, Hs.
    rewrite (bool_decide_eq_false_2 _ Hx), (bool_decide_eq_false_2 _ Hy).
    by repeat case_match. }
  assert (Hn : pushing (self w) event = false).
  { unfold pushing. rewrite Hb, Ht, Hs.
    rewrite (bool_decide_eq_false_2 _ Hx), (bool_decide_eq_false_2 _ Hy).
    by repeat case_match. }
  split; [|split; [|split; [|split]]].
  - destruct w as [m tr]. simpl in *. run_event.
    rewrite Hb, Ht, Hs.
    rewrite (bool_decide_eq_false_2 _ Hx), (bool_decide_eq_false_2 _ Hy).
    by repeat case_match.
  - rewrite process_self, Hp. apply with_current_input_id.
  - rewrite process_self, Hp. by destruct (self w).
  - rewrite process_pushes, Hn. apply app_nil_r.
  - intros Htest. destruct w as [m tr]. simpl in *. run_event.
    rewrite Htest, Hb, Ht, Hs.
    rewrite (bool_decide_eq_false_2 _ Hx), (bool_decide_eq_false_2 _ Hy).
    by repeat case_match.
Qed.

Lemma unmapped_event_is_noop_witness :
  exec (_process_gamepad_event {| ev_type := "Key"; code := "BTN_THUMBL"; state := 1 |})
    started_mapper = started_mapper.
Proof.
  refine (proj2 (proj2 (proj2 (proj2 (unmapped_event_is_noop started_mapper
    {| ev_type := "Key"; code := "BTN_THUMBL"; state := 1 |} _ _ _ _ _)))) _);
    done.
Defined.

(** C9: applying the same event twice in a row leaves the same packet as
    applying it once, for every event and every state of the object. *)
Theorem process_twice_same_packet (w : world) (event : Event) :
  current_input (self (exec (_process_gamepad_event event)
                         (exec (_process_gamepad_event event) w)))
  = current_input (self (exec (_process_gamepad_event event) w)).
Proof.
  rewrite (process_self event (exec _ w)).
  rewrite (process_self event w).
  simpl. apply packet_after_twice.
Qed.

(** C4: an absolute event on the horizontal hat axis sets
    [DPAD_LEFT = (state == -1)] and [DPAD_RIGHT = (state == 1)], so the two
    are never both pressed after it and any other value releases both; the
    vertical hat axis does the same with [DPAD_UP] and [DPAD_DOWN]. *)
Theorem dpad_hat_event (w : world) (event : Event) :
  test_mode (self w) = false ->
  ev_type event = "Absolute" ->
  trigger_mappings (self w) !! code event = None ->
  (code event = "ABS_HAT0X" ->
     buttons (current_input (self (exec (_process_gamepad_event event) w))) !! Buttons.DPAD_LEFT
       = Some (state event =? -1)
     /\ buttons (current_input (self (exec (_process_gamepad_event event) w))) !! Buttons.DPAD_RIGHT
       = Some (state event =? 1)
     /\ ~ (buttons (current_input (self (exec (_process_gamepad_event event) w))) !! Buttons.DPAD_LEFT
             = Some true
           /\ buttons (current_input (self (exec (_process_gamepad_event event) w))) !! Buttons.DPAD_RIGHT
             = Some true)
     /\ (state event <> -1 -> state event <> 1 ->
         buttons (current_input (self (exec (_process_gamepad_event event) w))) !! Buttons.DPAD_LEFT
           = Some false
         /\ buttons (current_input (self (exec (_process_gamepad_event event) w))) !! Buttons.DPAD_RIGHT
           = Some false))
  /\ (code event = "ABS_HAT0Y" ->
     buttons (current_input (self (exec (_process_gamepad_event event) w))) !! Buttons.DPAD_UP
       = Some (state event =? -1)
     /\ buttons (current_input (self (exec (_process_gamepad_event event) w))) !! Buttons.DPAD_DOWN
       = Some (state event =? 1)
     /\ ~ (buttons (current_input (self (exec (_process_gamepad_event event) w))) !! Buttons.DPAD_UP
             = Some true
           /\ buttons (current_input (self (exec (_process_gamepad_event event) w))) !! Buttons.DPAD_DOWN
             = Some true)
     /\ (state event <> -1 -> state event <> 1 ->
         buttons (current_input (self (exec (_process_gamepad_event event) w))) !! Buttons.DPAD_UP
           = Some false
         /\ buttons (current_input (self (exec (_process_gamepad_event event) w))) !! Buttons.DPAD_DOWN
           = Some false)).
Proof.
  intros Htest Habs Htrig.
  rewrite process_self. simpl.
  unfold packet_after. rewrite Htest, Habs, Htrig. simpl.
  split; intros Hcode; rewrite Hcode; simpl.
  - rewrite lookup_insert_eq, lookup_insert_ne, lookup_insert_eq by done.
    repeat split.
    + intros [Hl Hr]. simplify_eq. lia.
    + f_equal. lia.
    + f_equal. lia.
  - rewrite lookup_insert_eq, lookup_insert_ne, lookup_insert_eq by done.
    repeat split.
    + intros [Hu Hd]. simplify_eq. lia.
    + f_equal. lia.
    + f_equal. lia.
Qed.

Lemma dpad_hat_event_witness :
  buttons (current_input (self (exec
    (_process_gamepad_event {| ev_type := "Absolute"; code := "ABS_HAT0X"; state := -1 |})
    started_mapper))) !! Buttons.DPAD_LEFT = Some true
  /\ buttons (current_input (self (exec
    (_process_gamepad_event {| ev_type := "Absolute"; code := "ABS_HAT0X"; state := -1 |})
    started_mapper))) !! Buttons.DPAD_RIGHT = Some false.
Proof.
  pose proof (dpad_hat_event started_mapper
    {| ev_type := "Absolute"; code := "ABS_HAT0X"; state := -1 |}
    eq_refl eq_refl eq_refl) as [Hx _].
  destruct (Hx eq_refl) as (Hl & Hr & _). split; [exact Hl | exact Hr].
Defined.

(** ** The trigger threshold *)

Lemma trigger_threshold (v : Z) :
  0 <= v <= 255 -> (Z.quot (v * 100) 255 >? 50) = (131 <=? v).
Proof.
  intros Hv. rewrite Z.quot_div_nonneg by lia.
  destruct (Z.leb_spec 131 v); destruct (Z.gtb_spec (v * 100 / 255) 50);
    try reflexivity; Z.div_mod_to_equations; lia.
Qed.

(** C2, as the code has it: an absolute event whose identifier is in the
    trigger map, with native value v in 0..255, sets the mapped button to
    [int((v / 255) * 100) > 50], the quotient v * 100 / 255 truncated (not
    rounded to nearest); the button is pressed exactly from v = 131 on, so
    0 and 127 give released and 255 gives pressed. *)
Theorem trigger_event_truncates (w : world) (event : Event) (b : Buttons.t) :
  test_mode (self w) = false ->
  ev_type event = "Absolute" ->
  trigger_mappings (self w) !! code event = Some b ->
  0 <= state event <= 255 ->
  current_input (self (exec (_process_gamepad_event event) w))
    = set_button b (Z.quot (state event * 100) 255 >? 50) (current_input (self w))
  /\ buttons (current_input (self (exec (_process_gamepad_event event) w))) !! b
     = Some (131 <=? state event)
  /\ (state event = 0 \/ state event = 127 ->
      buttons (current_input (self (exec (_process_gamepad_event event) w))) !! b = Some false)
  /\ (state event = 255 ->
      buttons (current_input (self (exec (_process_gamepad_event event) w))) !! b = Some true).
Proof.
  intros Htest Habs Htrig Hv.
  rewrite process_self. simpl.
  unfold packet_after. rewrite Htest, Habs, Htrig. simpl.
  rewrite trigger_scaled by done.
  simpl. rewrite lookup_insert_eq, trigger_threshold by done.
  repeat split.
  - intros [-> | ->]; reflexivity.
  - intros ->; reflexivity.
Qed.

Lemma trigger_event_truncates_witness :
  buttons (current_input (self (exec
    (_process_gamepad_event {| ev_type := "Absolute"; code := "ABS_RZ"; state := 131 |})
    started_mapper))) !! Buttons.ZR = Some true.
Proof.
  refine (proj1 (proj2 (trigger_event_truncates started_mapper
    {| ev_type := "Absolute"; code := "ABS_RZ"; state := 131 |} Buttons.ZR _ _ _ _)));
    [reflexivity | reflexivity | reflexivity | simpl; lia].
Defined.

(** C2 as stated fails at v = 129: the nearest integer to 129 * 100 / 255
    is 51, above the threshold, and the code leaves the button released. *)
Lemma trigger_129_is_not_rounded :
  (round_div (129 * 100) 255 >? 50) = true
  /\ buttons (current_input (self (exec
       (_process_gamepad_event {| ev_type := "Absolute"; code := "ABS_Z"; state := 129 |})
       started_mapper))) !! Buttons.ZL = Some false
  /\ buttons (current_input (self (exec
       (_process_gamepad_event {| ev_type := "Absolute"; code := "ABS_Z"; state := 129 |})
       started_mapper))) !! Buttons.ZL <> Some (round_div (129 * 100) 255 >? 50).
Proof. vm_compute. repeat split; congruence. Qed.

(** ** Stick axes *)

Lemma truncated_axis_value_bounds (axis : string) (v : Z) :
  -32768 <= v <= 32767 -> -100 <= truncated_axis_value axis v <= 100.
Proof.
  intros Hv. unfold truncated_axis_value.
  assert (-100 <= Z.quot (v * 100) 32767 <= 100).
  { Z.quot_rem_to_equations. lia. }
  case_bool_decide; lia.
Qed.

(** C3, as the code has it: an absolute event whose identifier is in the
    axis map (and is no trigger or hat identifier), with native value v in
    -32768..32767, sets the mapped axis of the mapped stick to
    [int((v / 32767) * 100)], the quotient v * 100 / 32767 truncated toward
    zero (not rounded to nearest), negated when the axis is ["y"]; on that
    range the value lies in [-100, 100], and native value 0 gives 0. *)
Theorem stick_event_truncates (w : world) (event : Event) (stick_name : Sticks) (axis : string) :
  test_mode (self w) = false ->
  ev_type event = "Absolute" ->
  trigger_mappings (self w) !! code event = None ->
  code event <> "ABS_HAT0X" ->
  code event <> "ABS_HAT0Y" ->
  stick_mappings (self w) !! code event = Some (stick_name, axis) ->
  -32768 <= state event <= 32767 ->
  current_input (self (exec (_process_gamepad_event event) w))
    = (if bool_decide (axis = "x")
       then set_X_VALUE stick_name (truncated_axis_value axis (state event))
       else set_Y_VALUE stick_name (truncated_axis_value axis (state event)))
        (current_input (self w))
  /\ (axis = "x" ->
      X_VALUE (get_stick (current_input (self (exec (_process_gamepad_event event) w))) stick_name)
      = Z.quot (state event * 100) 32767)
  /\ (axis = "y" ->
      Y_VALUE (get_stick (current_input (self (exec (_process_gamepad_event event) w))) stick_name)
      = - Z.quot (state event * 100) 32767)
  /\ -100 <= truncated_axis_value axis (state event) <= 100
  /\ (state event = 0 -> truncated_axis_value axis (state event) = 0).
Proof.
  intros Htest Habs Htrig Hx Hy Hmap Hv.
  rewrite process_self. simpl.
  unfold packet_after. rewrite Htest, Habs, Htrig, Hmap. simpl.
  rewrite (bool_decide_eq_false_2 _ Hx), (bool_decide_eq_false_2 _ Hy).
  rewrite stick_scaled by done.
  fold (truncated_axis_value axis (state event)).
  split; [by destruct (bool_decide (axis = "x"))|]. split; [|split; [|split]].
  - intros ->. simpl. by destruct stick_name.
  - intros ->. simpl. by destruct stick_name.
  - by apply truncated_axis_value_bounds.
  - intros ->. unfold truncated_axis_value. by case_bool_decide.
Qed.

Lemma stick_event_truncates_witness :
  Y_VALUE (get_stick (current_input (self (exec
    (_process_gamepad_event {| ev_type := "Absolute"; code := "ABS_RY"; state := -32768 |})
    started_mapper))) R_STICK) = - Z.quot (-32768 * 100) 32767.
Proof.
  refine (proj1 (proj2 (proj2 (stick_event_truncates started_mapper
    {| ev_type := "Absolute"; code := "ABS_RY"; state := -32768 |} R_STICK "y"
    _ _ _ _ _ _ _))) _);
    [reflexivity | reflexivity | reflexivity | done | done | reflexivity
    | simpl; lia | reflexivity].
Defined.

(** C3 as stated fails at v = 300 on the left stick's x axis: the nearest
    integer to 300 * 100 / 32767 is 1, and the code stores 0.  Nor does
    anything clamp: at v = 40000, beyond the documented range, the code
    stores 122. *)
Lemma stick_value_not_rounded_nor_clamped :
  (rounded_axis_value "x" 300 = 1
   /\ X_VALUE (l_stick (current_input (self (exec
        (_process_gamepad_event {| ev_type := "Absolute"; code := "ABS_X"; state := 300 |})
        started_mapper)))) = 0)
  /\ (rounded_axis_value "x" 40000 = 100
      /\ X_VALUE (l_stick (current_input (self (exec
           (_process_gamepad_event {| ev_type := "Absolute"; code := "ABS_X"; state := 40000 |})
           started_mapper)))) = 122).
Proof. vm_compute. repeat split; reflexivity. Qed.

(** ** Pushes *)

(** C1, as the code has it: outside test mode every event makes at most one
    call of [set_controller_input], and that call carries the packet as the
    event's own assignments have left it; a Key event in the button map, an
    absolute event in the trigger map (native value in 0..255) and an
    absolute event in the axis map (native value in -32768..32767) each make
    exactly one call, whether or not a field changed; an event in no table
    makes none. *)
Theorem mapped_event_pushes_once (w : world) (event : Event) :
  test_mode (self w) = false ->
  (pushes (trace (exec (_process_gamepad_event event) w)) = pushes (trace w)
   \/ pushes (trace (exec (_process_gamepad_event event) w))
      = pushes (trace w) ++
        [Set_controller_input (controller_idx (self w))
           (current_input (self (exec (_process_gamepad_event event) w)))])
  /\ (ev_type event = "Key" ->
      is_Some (button_mappings (self w) !! code event) ->
      pushes (trace (exec (_process_gamepad_event event) w))
      = pushes (trace w) ++
        [Set_controller_input (controller_idx (self w))
           (current_input (self (exec (_process_gamepad_event event) w)))])
  /\ (ev_type event = "Absolute" ->
      is_Some (trigger_mappings (self w) !! code event) ->
      0 <= state event <= 255 ->
      pushes (trace (exec (_process_gamepad_event event) w))
      = pushes (trace w) ++
        [Set_controller_input (controller_idx (self w))
           (current_input (self (exec (_process_gamepad_event event) w)))])
  /\ (ev_type event = "Absolute" ->
      trigger_mappings (self w) !! code event = None ->
      code event <> "ABS_HAT0X" ->
      code event <> "ABS_HAT0Y" ->
      is_Some (stick_mappings (self w) !! code event) ->
      -32768 <= state event <= 32767 ->
      pushes (trace (exec (_process_gamepad_event event) w))
      = pushes (trace w) ++
        [Set_controller_input (controller_idx (self w))
           (current_input (self (exec (_process_gamepad_event event) w)))])
  /\ (button_mappings (self w) !! code event = None ->
      trigger_mappings (self w) !! code event = None ->
      stick_mappings (self w) !! code event = None ->
      code event <> "ABS_HAT0X" ->
      code event <> "ABS_HAT0Y" ->
      pushes (trace (exec (_process_gamepad_event event) w)) = pushes (trace w)).
Proof.
  intros Htest.
  rewrite process_pushes, process_self. simpl.
  split; [|split; [|split; [|split]]].
  - destruct (pushing (self w) event); [by right | left; apply app_nil_r].
  - intros Hkey [b Hb]. unfold pushing.
    by rewrite Htest, Hkey, Hb.
  - intros Habs [b Hb] Hv. unfold pushing.
    rewrite Htest, Habs, Hb. simpl.
    by rewrite trigger_scaled.
  - intros Habs Htrig Hx Hy [sa Hs] Hv. unfold pushing.
    rewrite Htest, Habs, Htrig, Hs. simpl.
    rewrite (bool_decide_eq_false_2 _ Hx), (bool_decide_eq_false_2 _ Hy).
    by rewrite stick_scaled.
  - intros Hb Ht Hs Hx Hy. unfold pushing.
    rewrite Htest, Hb, Ht, Hs.
    rewrite (bool_decide_eq_false_2 _ Hx), (bool_decide_eq_false_2 _ Hy).
    repeat case_match; by rewrite ?app_nil_r.
Qed.

Lemma mapped_event_pushes_once_witness :
  pushes (trace (exec
    (_process_gamepad_event {| ev_type := "Key"; code := "BTN_START"; state := 1 |})
    started_mapper))
  = [Set_controller_input None
       (set_button Buttons.PLUS true create_input_packet)].
Proof.
  refine (eq_trans (proj1 (proj2 (mapped_event_pushes_once started_mapper
    {| ev_type := "Key"; code := "BTN_START"; state := 1 |} _)) _ _) _);
    [reflexivity | reflexivity | by eexists | reflexivity].
Defined.

(** C1 as stated fails on a button release that changes no field: the
    packet is what it was, and the call is made all the same. *)
Lemma unchanged_button_event_still_pushes :
  current_input (self (exec
    (_process_gamepad_event {| ev_type := "Key"; code := "BTN_SOUTH"; state := 0 |})
    started_mapper)) = current_input (self started_mapper)
  /\ pushes (trace (exec
       (_process_gamepad_event {| ev_type := "Key"; code := "BTN_SOUTH"; state := 0 |})
       started_mapper))
     = [Set_controller_input None create_input_packet].
Proof. split; reflexivity. Qed.

(** A hat event changes the packet and reaches no call of
    [set_controller_input]: the call of the stick branch is not shared with
    the two hat branches. *)
Example hat_event_is_not_pushed :
  buttons (current_input (self (exec
    (_process_gamepad_event {| ev_type := "Absolute"; code := "ABS_HAT0X"; state := 1 |})
    started_mapper))) !! Buttons.DPAD_RIGHT = Some true
  /\ pushes (trace (exec
       (_process_gamepad_event {| ev_type := "Absolute"; code := "ABS_HAT0X"; state := 1 |})
       started_mapper)) = [].
Proof. split; reflexivity. Qed.

(** ** Connecting *)

(** While the entry is undecided the loop sleeps and reads again. *)
Lemma wait_for_connection_undecided (k : nat) : forall (fuel n : nat) (m : ControllerMapper)
    (idx : Z) (tr : list effect),
  controller_idx m = Some idx ->
  (forall i, (i < k)%nat -> undecided (Nxbt.state (nx m) idx (n + i))) ->
  wait_for_connection (k + fuel) n {| self := m; trace := tr |}
  = wait_for_connection fuel (n + k) {| self := m; trace := tr ++ replicate k (Sleep 100) |}.
Proof.
  induction k as [|k IH]; intros fuel n m idx tr Hidx Hund.
  - simpl. by rewrite Nat.add_0_r, app_nil_r.
  - destruct (Hund 0%nat ltac:(lia)) as [Hc Hx]. rewrite Nat.add_0_r in Hc, Hx.
    change (S k + fuel)%nat with (S (k + fuel)).
    cbn [wait_for_connection]. unfold_monad. cbn [self trace].
    rewrite Hidx.
    rewrite (bool_decide_eq_false_2 _ Hc), (bool_decide_eq_false_2 _ Hx).
    rewrite (IH fuel (S n) m idx _ Hidx).
    + rewrite <- app_assoc. simpl. by rewrite Nat.add_succ_r.
    + intros i Hi. specialize (Hund (S i) ltac:(lia)).
      by rewrite Nat.add_succ_r in Hund.
Qed.

Lemma connect_controller_polls (w : world) (controller_type : Z) (k fuel : nat) :
  test_mode (self w) = false ->
  (forall i, (i < k)%nat -> undecided (entry w controller_type i)) ->
  connect_controller (k + fuel) controller_type w
  = wait_for_connection fuel k (polled w controller_type k).
Proof.
  intros Htest Hund. destruct w as [m tr].
  simpl in Htest.
  unfold connect_controller. unfold_monad. cbn [self trace]. rewrite Htest. simpl.
  rewrite (wait_for_connection_undecided k fuel 0 _ (created_idx {| self := m; trace := tr |} controller_type)).
  - unfold polled. simpl. by rewrite <- app_assoc.
  - by destruct m.
  - intros i Hi. simpl. destruct m. apply (Hund i Hi).
Qed.

(** When connecting raises, [main] runs [cleanup] and lets the exception
    through; [start_input_processing] is not reached. *)
Lemma main_startup_raises (fuel : nat) (controller_type : Z) (w w' : world) (e : exn) :
  test_mode (self w) = false ->
  is_Exception e = true ->
  connect_controller fuel controller_type w = (Raise e, w') ->
  main_startup fuel controller_type w = try_finally (raise e) cleanup w'.
Proof.
  intros Htest Hexc Hconn. unfold main_startup.
  unfold bind at 1. unfold get at 1. cbv beta iota.
  rewrite Htest. cbn [negb].
  unfold bind at 1. unfold bind at 1. rewrite Hconn.
  by destruct e.
Qed.

(** C5: outside test mode [connect_controller] creates a session and reads
    the endpoint's state entry every 100 ms until it is decided.  With the
    first decided entry at read [k] (and fuel for more than [k] reads): if
    it says connected the call returns the session index; if it says
    crashed the call raises [ConnectionError] with the endpoint's error
    detail, the worker is not started, and [main] (on a fresh object)
    passes the error on after [cleanup] without ever starting the input
    loop. *)
Theorem connect_polls_until_decided (w : world) (controller_type : Z) (k fuel : nat) :
  test_mode (self w) = false ->
  (forall i, (i < k)%nat -> undecided (entry w controller_type i)) ->
  (k < fuel)%nat ->
  (lifecycle (entry w controller_type k) = "connected" ->
   connect_controller fuel controller_type w
   = (Return (Done (created_idx w controller_type)), polled w controller_type k))
  /\ (lifecycle (entry w controller_type k) = "crashed" ->
      connect_controller fuel controller_type w
      = (Raise (ConnectionError ("Controller failed to connect: "
                                   +:+ errors (entry w controller_type k))),
         polled w controller_type k)
      /\ input_thread (self (polled w controller_type k)) = input_thread (self w)
      /\ running (self (polled w controller_type k)) = running (self w)
      /\ (input_thread (self w) = None ->
          fst (main_startup fuel controller_type w)
          = Raise (ConnectionError ("Controller failed to connect: "
                                      +:+ errors (entry w controller_type k)))
          /\ trace (exec (main_startup fuel controller_type) w)
             = trace w ++ Create_controller controller_type (created_idx w controller_type)
                 :: replicate k (Sleep 100)
                 ++ [Remove_controller (created_idx w controller_type)]
          /\ input_thread (self (exec (main_startup fuel controller_type) w)) = None
          /\ running (self (exec (main_startup fuel controller_type) w)) = false)).
Proof.
  intros Htest Hund Hfuel.
  replace fuel with (k + S (fuel - S k))%nat by lia.
  split.
  - intros Hc. rewrite connect_controller_polls by done.
    cbn [wait_for_connection]. unfold_monad. unfold polled at 1 2. cbn [self trace].
    destruct w as [m tr]. destruct m. simpl in *.
    unfold entry, created_idx in Hc. simpl in Hc.
    by rewrite (bool_decide_eq_true_2 _ Hc).
  - intros Hx.
    assert (Hne : lifecycle (entry w controller_type k) <> "connected")
      by (rewrite Hx; done).
    assert (Hconn : connect_controller (k + S (fuel - S k)) controller_type w
      = (Raise (ConnectionError ("Controller failed to connect: "
                                   +:+ errors (entry w controller_type k))),
         polled w controller_type k)).
    { rewrite connect_controller_polls by done.
      cbn [wait_for_connection]. unfold_monad. unfold polled at 1 2. cbn [self trace].
      destruct w as [m tr]. destruct m. simpl in *.
      unfold entry, created_idx in Hx, Hne. simpl in Hx, Hne.
      by rewrite (bool_decide_eq_false_2 _ Hne), (bool_decide_eq_true_2 _ Hx). }
    split; [exact Hconn|].
    split; [by destruct w as [[] ?]|].
    split; [by destruct w as [[] ?]|].
    intros Hthread.
    unfold exec. rewrite (main_startup_raises _ _ _ _ (ConnectionError _) Htest eq_refl Hconn).
    unfold try_finally, cleanup, stop_input_processing. unfold_monad.
    destruct w as [m tr]. destruct m. simpl in *. subst.
    unfold polled, created_idx, entry. simpl.
    repeat split. by rewrite <- app_assoc.
Qed.

Lemma connect_polls_until_decided_witness :
  fst (connect_controller 5 0
         (new_world (init false false
            (fake_nx {| lifecycle := "crashed"; errors := "adapter lost" |}))))
  = Raise (ConnectionError "Controller failed to connect: adapter lost").
Proof.
  refine (f_equal fst (proj1 (proj2 (connect_polls_until_decided
    (new_world (init false false
       (fake_nx {| lifecycle := "crashed"; errors := "adapter lost" |})))
    0 2 5 _ _ _) _))).
  - reflexivity.
  - intros [|[|i]] Hi; [split; done | split; done | lia].
  - lia.
  - reflexivity.
Defined.

(** ** The input loop *)

(** Applying events changes nothing of the object but its packet. *)
Lemma for_each_event_self (events : list Event) : forall w : world,
  exists p, self (exec (for_each_event events) w) = with_current_input p (self w).
Proof.
  induction events as [|event events IH]; intros w.
  - exists (current_input (self w)). simpl. by rewrite with_current_input_id.
  - simpl. unfold exec, bind.
    pose proof (process_self event w) as Hs. unfold exec in Hs.
    destruct (_process_gamepad_event event w) as [[[]|e] w1]; simpl in *.
    + destruct (IH w1) as [p Hp]. unfold exec in Hp.
      exists p. rewrite Hp, Hs. by destruct (self w).
    + by eexists.
Qed.

Lemma pull_and_apply_self (p : pull) (w : world) :
  exists q, self (exec (pull_and_apply p) w) = with_current_input q (self w).
Proof.
  destruct p as [events|e]; unfold pull_and_apply, exec, bind; simpl.
  - apply (for_each_event_self events w).
  - exists (current_input (self w)). by rewrite with_current_input_id.
Qed.

Lemma input_loop_iteration_caught (p : pull) (w w1 : world) (e : exn) :
  pull_and_apply p w = (Raise e, w1) ->
  is_Exception e = true ->
  input_loop_iteration p w = (Return tt, handled e w1).
Proof.
  intros Hraise Hexc. unfold input_loop_iteration, try_except_Exception.
  rewrite Hraise, Hexc. unfold_monad. unfold handled. simpl.
  by rewrite <- app_assoc.
Qed.

(** One iteration lets no [Exception] through. *)
Lemma input_loop_iteration_contains (p : pull) (w : world) (e : exn) :
  fst (input_loop_iteration p w) = Raise e -> is_Exception e = false.
Proof.
  unfold input_loop_iteration, try_except_Exception.
  destruct (pull_and_apply p w) as [[[]|e'] w1]; simpl; [done|].
  destruct (is_Exception e') eqn:Hexc; simpl.
  - unfold_monad. done.
  - intros H. by simplify_eq.
Qed.

(** Neither does the loop. *)
Lemma input_loop_contains (device : list pull) : forall (w : world) (e : exn),
  fst (_input_loop device w) = Raise e -> is_Exception e = false.
Proof.
  induction device as [|p device IH]; intros w e; simpl;
    unfold bind at 1; unfold get at 1; destruct (running (self w)); try done.
  unfold bind.
  destruct (input_loop_iteration p w) as [[[]|e'] w1] eqn:Hit; simpl.
  - apply IH.
  - intros H. simplify_eq. apply (input_loop_iteration_contains p w).
    by rewrite Hit.
Qed.

(** C6: when a pull/apply cycle raises an error (an [Exception], from the
    device pull or from a rejected push), the worker logs it, sleeps 100 ms
    and goes on with the next iteration; the running flag is still true, and
    no such error ends the loop or leaves it. *)
Theorem input_loop_survives_errors (w w1 : world) (p : pull) (e : exn) :
  running (self w) = true ->
  pull_and_apply p w = (Raise e, w1) ->
  is_Exception e = true ->
  input_loop_iteration p w = (Return tt, handled e w1)
  /\ trace (handled e w1) = trace w1 ++ [Logger_error e; Sleep 100]
  /\ running (self (handled e w1)) = true
  /\ (forall device, _input_loop (p :: device) w = _input_loop device (handled e w1))
  /\ (forall device e', fst (_input_loop device w) = Raise e' -> is_Exception e' = false).
Proof.
  intros Hrun Hraise Hexc.
  pose proof (input_loop_iteration_caught p w w1 e Hraise Hexc) as Hit.
  split; [exact Hit|]. split; [done|]. split; [|split].
  - destruct (pull_and_apply_self p w) as [q Hq].
    unfold exec in Hq. rewrite Hraise in Hq. simpl in *.
    rewrite Hq. by destruct (self w).
  - intros device. simpl. unfold bind at 1. unfold get at 1.
    rewrite Hrun. unfold bind. by rewrite Hit.
  - intros device e'. apply input_loop_contains.
Qed.

Lemma input_loop_survives_errors_witness :
  _input_loop
    [Events [{| ev_type := "Key"; code := "BTN_EAST"; state := 1 |}]; Pull_raises (Exception "OSError" "device gone")]
    {| self := with_running true (init false false rejecting_nx); trace := [] |}
  = _input_loop [Pull_raises (Exception "OSError" "device gone")]
      (handled (Exception "RuntimeError" "controller is not connected")
         (exec (pull_and_apply
                  (Events [{| ev_type := "Key"; code := "BTN_EAST"; state := 1 |}]))
            {| self := with_running true (init false false rejecting_nx); trace := [] |})).
Proof.
  refine (proj1 (proj2 (proj2 (proj2 (input_loop_survives_errors
    {| self := with_running true (init false false rejecting_nx); trace := [] |}
    _ (Events [{| ev_type := "Key"; code := "BTN_EAST"; state := 1 |}])
    (Exception "RuntimeError" "controller is not connected") _ _ _)))) _);
    reflexivity.
Defined.

(** ** Starting and stopping the worker *)

Lemma live_workers_app (tr1 tr2 : list effect) : forall n,
  live_workers (tr1 ++ tr2) n = live_workers tr2 (live_workers tr1 n).
Proof.
  induction tr1 as [|e tr1 IH]; intros n; [done|].
  destruct e; simpl; apply IH.
Qed.

Lemma live_workers_no_thread (tr : list effect) : forall n,
  Forall (fun e => e <> Thread_start /\ e <> Thread_join) tr ->
  live_workers tr n = n.
Proof.
  induction tr as [|e tr IH]; intros n Hall; [done|].
  apply Forall_cons in Hall as [[Hs Hj] Hall].
  destruct e; simpl; try done; by apply IH.
Qed.

Lemma start_keeps_invariant (w : world) :
  worker_invariant w -> worker_invariant (exec start_input_processing w).
Proof.
  unfold worker_invariant, worker_count, start_input_processing. unfold_monad.
  destruct w as [m tr]. destruct m as [? ? ? ? ? ? ? ? ? [th|]]; simpl; [done|].
  intros H. by rewrite live_workers_app, H.
Qed.

Lemma stop_keeps_invariant (w : world) :
  worker_invariant w -> worker_invariant (exec stop_input_processing w).
Proof.
  unfold worker_invariant, worker_count, stop_input_processing. unfold_monad.
  destruct w as [m tr]. destruct m as [? ? ? ? ? ? ? ? ? [th|]]; simpl; [|done].
  intros H. by rewrite live_workers_app, H.
Qed.

Lemma cleanup_keeps_invariant (w : world) :
  worker_invariant w -> worker_invariant (exec cleanup w).
Proof.
  unfold worker_invariant, worker_count, cleanup, stop_input_processing. unfold_monad.
  destruct w as [m tr]. destruct m as [? ? ? [idx|] ? ? ? ? ? [th|]]; simpl;
    intros H; by rewrite ?live_workers_app, ?H.
Qed.

Lemma process_keeps_invariant (event : Event) (w : world) :
  worker_invariant w -> worker_invariant (exec (_process_gamepad_event event) w).
Proof.
  unfold worker_invariant, worker_count. intros H.
  rewrite process_self. simpl. rewrite <- H. clear H.
  destruct w as [m tr]. run_event.
  destruct m as [dbg tm nxv idx bm sm trm p rn th]; simpl.
  repeat (case_match; simpl in *; simplify_eq;
          rewrite ?live_workers_app; try done).
Qed.

Lemma run_calls_keeps_invariant (calls : list call) : forall w : world,
  worker_invariant w -> worker_invariant (run_calls calls w).
Proof.
  induction calls as [|c calls IH]; intros w H; [done|].
  simpl. apply IH. destruct c; simpl.
  - by apply start_keeps_invariant.
  - by apply stop_keeps_invariant.
  - by apply cleanup_keeps_invariant.
  - by apply process_keeps_invariant.
Qed.

(** C10: [start_input_processing] on an object that already holds a worker
    thread returns at once and changes nothing: no second worker, the
    running flag and every other attribute as before.  So over any run of
    start, stop, cleanup and event calls on a fresh object at most one
    worker is alive at any time. *)
Theorem start_twice_is_noop (w : world) (t : Thread) :
  input_thread (self w) = Some t ->
  start_input_processing w = (Return tt, w)
  /\ (forall (dbg tm : bool) (endpoint : Nxbt.t) (calls : list call),
        (live_workers (trace (run_calls calls (new_world (init dbg tm endpoint)))) 0 <= 1)%nat).
Proof.
  intros Hthread. split.
  - unfold start_input_processing. unfold_monad. by rewrite Hthread.
  - intros dbg tm endpoint calls.
    assert (H : worker_invariant (run_calls calls (new_world (init dbg tm endpoint))))
      by (by apply run_calls_keeps_invariant).
    unfold worker_invariant, worker_count in H. rewrite H.
    case_match; lia.
Qed.

Lemma start_twice_is_noop_witness :
  start_input_processing (exec start_input_processing started_mapper)
  = (Return tt, exec start_input_processing started_mapper).
Proof.
  refine (proj1 (start_twice_is_noop (exec start_input_processing started_mapper)
    input_loop_thread _)).
  reflexivity.
Defined.

(** ** The d-pad over a whole run *)

Lemma init_default_tables (dbg tm : bool) (endpoint : Nxbt.t) :
  default_tables (init dbg tm endpoint).
Proof.
  split; intros c b H; simpl in H;
    repeat (apply lookup_insert_Some in H as [[_ <-]|[_ H]]; [done|]);
    by rewrite lookup_empty in H.
Qed.

Lemma set_button_keeps_exclusive (b : Buttons.t) (v : bool) (p : input_packet) :
  is_dpad b = false -> dpad_exclusive p -> dpad_exclusive (set_button b v p).
Proof.
  intros Hb [Hlr Hud]. unfold dpad_exclusive, set_button. simpl.
  rewrite !lookup_insert_ne by (by destruct b). done.
Qed.

Lemma packet_after_keeps_exclusive (m : ControllerMapper) (event : Event) :
  default_tables m -> dpad_exclusive (current_input m) ->
  dpad_exclusive (packet_after m event).
Proof.
  intros [Hbm Htm] Hex. unfold packet_after.
  repeat case_match; simplify_eq; try done;
    try (apply set_button_keeps_exclusive; eauto; fail).
  - destruct Hex as [_ Hud]. split; simpl.
    + rewrite lookup_insert_eq, lookup_insert_ne, lookup_insert_eq by done.
      intros [Hl Hr]. simplify_eq. lia.
    + by rewrite !lookup_insert_ne.
  - destruct Hex as [Hlr _]. split; simpl.
    + by rewrite !lookup_insert_ne.
    + rewrite lookup_insert_eq, lookup_insert_ne, lookup_insert_eq by done.
      intros [Hu Hd]. simplify_eq. lia.
  - by destruct s.
  - by destruct s.
  - by destruct s.
  - by destruct s.
Qed.

Lemma lifecycle_call_keeps_packet (c : call) (w : world) :
  (forall event, c <> Call_process event) ->
  current_input (self (exec (do_call c) w)) = current_input (self w)
  /\ button_mappings (self (exec (do_call c) w)) = button_mappings (self w)
  /\ trigger_mappings (self (exec (do_call c) w)) = trigger_mappings (self w).
Proof.
  intros Hc. destruct w as [m tr].
  destruct m as [? ? ? [idx|] ? ? ? ? ? [th|]];
    destruct c as [| | |event]; try (by destruct (Hc event));
    unfold do_call, start_input_processing, cleanup, stop_input_processing;
    unfold_monad; done.
Qed.

Lemma run_calls_dpad_exclusive (calls : list call) : forall w : world,
  default_tables (self w) ->
  dpad_exclusive (current_input (self w)) ->
  dpad_exclusive (current_input (self (run_calls calls w))).
Proof.
  induction calls as [|c calls IH]; intros w Htab Hex; [done|].
  simpl.
  assert (Hlife : forall c', (forall event, c' <> Call_process event) ->
            dpad_exclusive (current_input (self (run_calls calls (exec (do_call c') w))))).
  { intros c' Hc. destruct (lifecycle_call_keeps_packet c' w Hc) as (Hp & Hb & Ht).
    apply IH.
    - unfold default_tables. by rewrite Hb, Ht.
    - by rewrite Hp. }
  destruct c as [| | |event]; try (by apply Hlife).
  apply IH; simpl; rewrite process_self.
  - by destruct (self w).
  - simpl. by apply packet_after_keeps_exclusive.
Qed.

(** X22: on an object built by [__init__], whatever events and lifecycle
    calls follow, opposite d-pad directions are never both pressed. *)
Lemma dpad_never_both_pressed (dbg tm : bool) (endpoint : Nxbt.t) (calls : list call) :
  dpad_exclusive (current_input (self (run_calls calls (new_world (init dbg tm endpoint))))).
Proof.
  apply run_calls_dpad_exclusive.
  - apply init_default_tables.
  - split; intros [H _]; done.
Qed.

(** ** A scripted run *)

(** Pulled in one batch by a running worker, the scripted events send four
    inputs, one per mapped event, each the packet as it stood after that
    event. *)
Example scripted_run_pushes :
  let w := exec (_input_loop [Events scripted_events])
             {| self := with_running true (init false false (fake_nx connected));
                trace := [] |} in
  let p1 := set_button Buttons.A true create_input_packet in
  let p2 := set_button Buttons.L true p1 in
  let p3 := set_X_VALUE L_STICK 100 p2 in
  let p4 := set_button Buttons.ZR true p3 in
  current_input (self w) = p4
  /\ trace w = [Set_controller_input None p1; Set_controller_input None p2;
                Set_controller_input None p3; Set_controller_input None p4].
Proof. vm_compute. split; reflexivity. Qed.

(** * Properties beyond the claims *)

(** ** Test mode *)

Lemma process_in_test_mode (event : Event) (w : world) :
  test_mode (self w) = true ->
  _process_gamepad_event event w
  = (Return tt, {| self := self w; trace := trace w ++ [Print_event event] |}).
Proof. intros Htest. destruct w as [m tr]. simpl in *. run_event. by rewrite Htest. Qed.

Lemma for_each_event_in_test_mode (events : list Event) : forall w : world,
  test_mode (self w) = true ->
  for_each_event events w
  = (Return tt, {| self := self w; trace := trace w ++ (Print_event <$> events) |}).
Proof.
  induction events as [|event events IH]; intros w Htest; simpl.
  - rewrite app_nil_r. by destruct w.
  - unfold bind. rewrite process_in_test_mode by done.
    rewrite IH by done. simpl. by rewrite <- app_assoc.
Qed.

Lemma endpoint_calls_app (tr1 tr2 : list effect) :
  endpoint_calls (tr1 ++ tr2) = endpoint_calls tr1 ++ endpoint_calls tr2.
Proof. apply filter_app. Qed.

Lemma endpoint_calls_prints (events : list Event) :
  endpoint_calls (Print_event <$> events) = [].
Proof. induction events as [|event events IH]; [done|]. simpl. apply IH. Qed.

Lemma input_loop_iteration_in_test_mode (p : pull) (w : world) :
  test_mode (self w) = true ->
  self (exec (input_loop_iteration p) w) = self w
  /\ endpoint_calls (trace (exec (input_loop_iteration p) w)) = endpoint_calls (trace w)
  /\ (forall e, fst (input_loop_iteration p w) = Raise e ->
      p = Pull_raises e /\ is_Exception e = false).
Proof.
  intros Htest.
  unfold input_loop_iteration, try_except_Exception, exec.
  destruct p as [events|e].
  - change (pull_and_apply (Events events) w) with (for_each_event events w).
    rewrite for_each_event_in_test_mode by done. simpl.
    rewrite endpoint_calls_app, endpoint_calls_prints, app_nil_r. done.
  - change (pull_and_apply (Pull_raises e) w) with (@Raise unit e, w).
    destruct e as [cls msg|cls msg]; simpl; unfold_monad; simpl.
    + rewrite <- app_assoc, endpoint_calls_app. simpl.
      rewrite app_nil_r. done.
    + split; [done|]. split; [done|]. intros e' He. by simplify_eq.
Qed.

(** One turn of the [while] loop. *)
Lemma input_loop_step (device : list pull) (w : world) :
  _input_loop device w
  = if running (self w) then
      match device with
      | [] => (Return Blocked_in_pull, w)
      | p :: device' =>
          match input_loop_iteration p w with
          | (Return _, w1) => _input_loop device' w1
          | (Raise e, w1) => (Raise e, w1)
          end
      end
    else (Return Stopped, w).
Proof.
  destruct device as [|p device]; simpl; unfold bind at 1, get at 1;
    destruct (running (self w)); try done.
Qed.

Lemma input_loop_in_test_mode (device : list pull) : forall w : world,
  test_mode (self w) = true ->
  self (exec (_input_loop device) w) = self w
  /\ endpoint_calls (trace (exec (_input_loop device) w)) = endpoint_calls (trace w).
Proof.
  induction device as [|p device IH]; intros w Htest; unfold exec;
    rewrite input_loop_step; destruct (running (self w)); try done.
  destruct (input_loop_iteration_in_test_mode p w Htest) as (Hs & Hc & _).
  unfold exec in *.
  destruct (input_loop_iteration p w) as [[[]|e] w1]; simpl in *; [|done].
  destruct (IH w1) as [Hs1 Hc1]; [by rewrite Hs|].
  unfold exec in *. by rewrite Hs1, Hc1, Hs, Hc.
Qed.

(** X1: in test mode a batch of events is only printed, one line per event
    in the order received; the object does not change, and however long the
    worker runs it makes no call to the endpoint. *)
Theorem test_mode_only_prints (w : world) (events : list Event) (device : list pull) :
  test_mode (self w) = true ->
  for_each_event events w
  = (Return tt, {| self := self w; trace := trace w ++ (Print_event <$> events) |})
  /\ self (exec (_input_loop device) w) = self w
  /\ endpoint_calls (trace (exec (_input_loop device) w)) = endpoint_calls (trace w).
Proof.
  intros Htest. split.
  - by apply for_each_event_in_test_mode.
  - by apply input_loop_in_test_mode.
Qed.

Lemma test_mode_only_prints_witness :
  trace (exec (_input_loop
     [Events [{| ev_type := "Key"; code := "BTN_EAST"; state := 1 |}]])
     {| self := with_running true (init false true rejecting_nx); trace := [] |})
  = [Print_event {| ev_type := "Key"; code := "BTN_EAST"; state := 1 |}]
  /\ endpoint_calls (trace (exec (_input_loop
       [Events [{| ev_type := "Key"; code := "BTN_EAST"; state := 1 |}]])
       {| self := with_running true (init false true rejecting_nx); trace := [] |})) = [].
Proof.
  split; [reflexivity|].
  refine (proj2 (proj2 (test_mode_only_prints
    {| self := with_running true (init false true rejecting_nx); trace := [] |}
    [] [Events [{| ev_type := "Key"; code := "BTN_EAST"; state := 1 |}]] _))).
  reflexivity.
Defined.

(** ** Routing by kind, and what an event leaves alone *)

(** X2: an event is routed by its kind first.  Outside test mode a Key
    event whose identifier is not in the button map is ignored even when the
    trigger map, the axis map or a hat axis knows the identifier; an event
    that is neither Key nor Absolute is ignored whatever its identifier; an
    Absolute event is ignored when no trigger, hat or axis entry matches,
    even when the button map knows the identifier.  Ignored means: the call
    returns, and neither the object nor the trace of outside calls
    changes. *)
Theorem unrouted_event_is_ignored (w : world) (event : Event) :
  test_mode (self w) = false ->
  (ev_type event = "Key" -> button_mappings (self w) !! code event = None) ->
  (ev_type event = "Absolute" ->
   trigger_mappings (self w) !! code event = None
   /\ code event <> "ABS_HAT0X" /\ code event <> "ABS_HAT0Y"
   /\ stick_mappings (self w) !! code event = None) ->
  _process_gamepad_event event w = (Return tt, w).
Proof.
  intros Htest Hkey Habs. destruct w as [m tr]. simpl in *. run_event.
  rewrite Htest.
  case_bool_decide as Hk.
  - by rewrite (Hkey Hk).
  - case_bool_decide as Ha; [|done].
    destruct (Habs Ha) as (Ht & Hx & Hy & Hs).
    rewrite Ht, Hs.
    by rewrite (bool_decide_eq_false_2 _ Hx), (bool_decide_eq_false_2 _ Hy).
Qed.

Lemma unrouted_event_is_ignored_witness :
  _process_gamepad_event {| ev_type := "Key"; code := "ABS_HAT0X"; state := 1 |}
    started_mapper = (Return tt, started_mapper).
Proof.
  refine (unrouted_event_is_ignored started_mapper
    {| ev_type := "Key"; code := "ABS_HAT0X"; state := 1 |} _ _ _).
  - reflexivity.
  - intros _. reflexivity.
  - intros H. discriminate H.
Defined.

(** X3: an axis event moves one axis of one stick and nothing else, for
    every native value: all buttons, the other stick and the other axis of
    the same stick keep their values. *)
Theorem stick_event_moves_one_axis (w : world) (event : Event)
    (stick_name : Sticks) (axis : string) :
  test_mode (self w) = false ->
  ev_type event = "Absolute" ->
  trigger_mappings (self w) !! code event = None ->
  code event <> "ABS_HAT0X" ->
  code event <> "ABS_HAT0Y" ->
  stick_mappings (self w) !! code event = Some (stick_name, axis) ->
  buttons (current_input (self (exec (_process_gamepad_event event) w)))
    = buttons (current_input (self w))
  /\ get_stick (current_input (self (exec (_process_gamepad_event event) w)))
       (other_stick stick_name)
     = get_stick (current_input (self w)) (other_stick stick_name)
  /\ (axis = "x" ->
      Y_VALUE (get_stick (current_input (self (exec (_process_gamepad_event event) w))) stick_name)
      = Y_VALUE (get_stick (current_input (self w)) stick_name))
  /\ (axis <> "x" ->
      X_VALUE (get_stick (current_input (self (exec (_process_gamepad_event event) w))) stick_name)
      = X_VALUE (get_stick (current_input (self w)) stick_name)).
Proof.
  intros Htest Habs Htrig Hx Hy Hmap.
  rewrite process_self. simpl.
  unfold packet_after. rewrite Htest, Habs, Htrig, Hmap. simpl.
  rewrite (bool_decide_eq_false_2 _ Hx), (bool_decide_eq_false_2 _ Hy).
  destruct (scaled (state event) 32767) as [value|e]; [|done].
  destruct stick_name; repeat split; try (by case_bool_decide);
    intros Hax; by rewrite ?(bool_decide_eq_true_2 _ Hax), ?(bool_decide_eq_false_2 _ Hax).
Qed.

Lemma stick_event_moves_one_axis_witness :
  buttons (current_input (self (exec
    (_process_gamepad_event {| ev_type := "Absolute"; code := "ABS_RX"; state := 12345 |})
    started_mapper))) = buttons (current_input (self started_mapper)).
Proof.
  refine (proj1 (stick_event_moves_one_axis started_mapper
    {| ev_type := "Absolute"; code := "ABS_RX"; state := 12345 |} R_STICK "x"
    _ _ _ _ _ _)); done.
Defined.

(** X4: a trigger event changes no button but the mapped one, and a hat
    event no button but its two directions, for every native value; neither
    moves a stick. *)
Theorem trigger_and_hat_events_leave_the_rest (w : world) (event : Event) :
  test_mode (self w) = false ->
  ev_type event = "Absolute" ->
  (forall b, trigger_mappings (self w) !! code event = Some b ->
     (forall b', b' <> b ->
        buttons (current_input (self (exec (_process_gamepad_event event) w))) !! b'
        = buttons (current_input (self w)) !! b')
     /\ l_stick (current_input (self (exec (_process_gamepad_event event) w)))
        = l_stick (current_input (self w))
     /\ r_stick (current_input (self (exec (_process_gamepad_event event) w)))
        = r_stick (current_input (self w)))
  /\ (trigger_mappings (self w) !! code event = None -> code event = "ABS_HAT0X" ->
     (forall b', b' <> Buttons.DPAD_LEFT -> b' <> Buttons.DPAD_RIGHT ->
        buttons (current_input (self (exec (_process_gamepad_event event) w))) !! b'
        = buttons (current_input (self w)) !! b')
     /\ l_stick (current_input (self (exec (_process_gamepad_event event) w)))
        = l_stick (current_input (self w))
     /\ r_stick (current_input (self (exec (_process_gamepad_event event) w)))
        = r_stick (current_input (self w)))
  /\ (trigger_mappings (self w) !! code event = None -> code event = "ABS_HAT0Y" ->
     (forall b', b' <> Buttons.DPAD_UP -> b' <> Buttons.DPAD_DOWN ->
        buttons (current_input (self (exec (_process_gamepad_event event) w))) !! b'
        = buttons (current_input (self w)) !! b')
     /\ l_stick (current_input (self (exec (_process_gamepad_event event) w)))
        = l_stick (current_input (self w))
     /\ r_stick (current_input (self (exec (_process_gamepad_event event) w)))
        = r_stick (current_input (self w))).
Proof.
  intros Htest Habs.
  rewrite process_self. simpl.
  unfold packet_after. rewrite Htest, Habs. simpl.
  split; [|split].
  - intros b Hb. rewrite Hb.
    destruct (scaled (state event) 255) as [value|e]; [|done].
    simpl. repeat split. intros b' Hne. by apply lookup_insert_ne.
  - intros Ht Hc. rewrite Ht, Hc. simpl. repeat split.
    intros b' Hl Hr. by rewrite !lookup_insert_ne.
  - intros Ht Hc. rewrite Ht, Hc. simpl. repeat split.
    intros b' Hu Hd. by rewrite !lookup_insert_ne.
Qed.

Lemma trigger_and_hat_events_leave_the_rest_witness :
  buttons (current_input (self (exec
    (_process_gamepad_event {| ev_type := "Absolute"; code := "ABS_Z"; state := 200 |})
    started_mapper))) !! Buttons.ZR
  = buttons (current_input (self started_mapper)) !! Buttons.ZR.
Proof.
  refine (proj1 (proj1 (trigger_and_hat_events_leave_the_rest started_mapper
    {| ev_type := "Absolute"; code := "ABS_Z"; state := 200 |} _ _)
    Buttons.ZL _) Buttons.ZR _); done.
Defined.

(** ** How events compose *)

Lemma packet_after_button (m : ControllerMapper) (event : Event) (b : Buttons.t) :
  test_mode m = false ->
  ev_type event = "Key" ->
  button_mappings m !! code event = Some b ->
  packet_after m event = set_button b (state event =? 1) (current_input m).
Proof.
  intros Htest Hkey Hmap. unfold packet_after.
  by rewrite Htest, Hkey, Hmap.
Qed.

(** X5: button events on different buttons commute, and of two events on
    the same button the later one decides: the packet after both does not
    depend on the order in the first case and is the packet after the second
    alone in the other. *)
Theorem button_events_commute (w : world) (e1 e2 : Event) (b1 b2 : Buttons.t) :
  test_mode (self w) = false ->
  ev_type e1 = "Key" ->
  ev_type e2 = "Key" ->
  button_mappings (self w) !! code e1 = Some b1 ->
  button_mappings (self w) !! code e2 = Some b2 ->
  (b1 <> b2 ->
   current_input (self (exec (_process_gamepad_event e2) (exec (_process_gamepad_event e1) w)))
   = current_input (self (exec (_process_gamepad_event e1) (exec (_process_gamepad_event e2) w))))
  /\ (b1 = b2 ->
      current_input (self (exec (_process_gamepad_event e2) (exec (_process_gamepad_event e1) w)))
      = current_input (self (exec (_process_gamepad_event e2) w))).
Proof.
  intros Htest Hk1 Hk2 Hm1 Hm2.
  rewrite !process_self. simpl.
  rewrite !(packet_after_button _ e1 b1), !(packet_after_button _ e2 b2) by done.
  simpl. split.
  - intros Hne. by apply set_button_swap.
  - intros ->. apply set_button_twice.
Qed.

Lemma button_events_commute_witness :
  current_input (self (exec
    (_process_gamepad_event {| ev_type := "Key"; code := "BTN_WEST"; state := 1 |})
    (exec (_process_gamepad_event {| ev_type := "Key"; code := "BTN_EAST"; state := 1 |})
       started_mapper)))
  = current_input (self (exec
    (_process_gamepad_event {| ev_type := "Key"; code := "BTN_EAST"; state := 1 |})
    (exec (_process_gamepad_event {| ev_type := "Key"; code := "BTN_WEST"; state := 1 |})
       started_mapper))).
Proof.
  refine (proj1 (button_events_commute started_mapper
    {| ev_type := "Key"; code := "BTN_EAST"; state := 1 |}
    {| ev_type := "Key"; code := "BTN_WEST"; state := 1 |}
    Buttons.A Buttons.Y _ _ _ _ _) _); done.
Defined.

(** ** Rejected pushes and other exceptions *)

Lemma pushes_debug (tr : list effect) (what : string) :
  pushes (tr ++ [Logger_debug what]) = pushes tr.
Proof. rewrite pushes_app. simpl. apply app_nil_r. Qed.

(** X6: the assignment comes before the push and is not undone when the
    endpoint rejects the input: the call raises the endpoint's exception,
    the packet holds the new button state all the same, and the events that
    follow in the same batch are not applied. *)
Theorem rejected_push_keeps_assignment (w : world) (event : Event) (b : Buttons.t)
    (e : exn) (events : list Event) :
  test_mode (self w) = false ->
  ev_type event = "Key" ->
  button_mappings (self w) !! code event = Some b ->
  Nxbt.set_controller_input (nx (self w)) (length (pushes (trace w)))
    (controller_idx (self w))
    (set_button b (state event =? 1) (current_input (self w))) = Some e ->
  fst (_process_gamepad_event event w) = Raise e
  /\ current_input (self (exec (_process_gamepad_event event) w))
     = set_button b (state event =? 1) (current_input (self w))
  /\ for_each_event (event :: events) w = _process_gamepad_event event w.
Proof.
  intros Htest Hkey Hmap Hrej.
  assert (Hraise : fst (_process_gamepad_event event w) = Raise e).
  { destruct w as [m tr]. simpl in *. run_event.
    rewrite Htest, Hkey, Hmap. simpl.
    destruct m as [dbg tm nxv idx bm sm trm p rn th]; simpl in *.
    destruct dbg; simpl; rewrite ?pushes_debug; by rewrite Hrej. }
  split; [exact Hraise|]. split.
  - rewrite process_self. simpl. by apply packet_after_button.
  - simpl. unfold bind.
    destruct (_process_gamepad_event event w) as [[[]|e'] w1]; simpl in *; [done|].
    by simplify_eq.
Qed.

Lemma rejected_push_keeps_assignment_witness :
  buttons (current_input (self (exec
    (for_each_event [{| ev_type := "Key"; code := "BTN_EAST"; state := 1 |};
                     {| ev_type := "Key"; code := "BTN_WEST"; state := 1 |}])
    (new_world (init false false rejecting_nx))))) !! Buttons.A = Some true
  /\ buttons (current_input (self (exec
    (for_each_event [{| ev_type := "Key"; code := "BTN_EAST"; state := 1 |};
                     {| ev_type := "Key"; code := "BTN_WEST"; state := 1 |}])
    (new_world (init false false rejecting_nx))))) !! Buttons.Y = Some false.
Proof.
  unfold exec.
  rewrite (proj2 (proj2 (rejected_push_keeps_assignment
    (new_world (init false false rejecting_nx))
    {| ev_type := "Key"; code := "BTN_EAST"; state := 1 |} Buttons.A
    (Exception "RuntimeError" "controller is not connected")
    [{| ev_type := "Key"; code := "BTN_WEST"; state := 1 |}]
    eq_refl eq_refl eq_refl eq_refl))).
  split; reflexivity.
Defined.

(** X7: the handler of the input loop catches [Exception] and nothing
    wider: when a cycle raises an exception outside that class the loop ends
    with it at once, nothing is logged and nothing sleeps. *)
Theorem base_exception_ends_loop (w w1 : world) (p : pull) (e : exn) (device : list pull) :
  running (self w) = true ->
  pull_and_apply p w = (Raise e, w1) ->
  is_Exception e = false ->
  _input_loop (p :: device) w = (Raise e, w1).
Proof.
  intros Hrun Hraise Hexc.
  rewrite input_loop_step, Hrun.
  unfold input_loop_iteration, try_except_Exception.
  by rewrite Hraise, Hexc.
Qed.

Lemma base_exception_ends_loop_witness :
  _input_loop [Pull_raises (BaseException "SystemExit" "0"); Events scripted_events]
    {| self := with_running true (init false false (fake_nx connected)); trace := [] |}
  = (Raise (BaseException "SystemExit" "0"),
     {| self := with_running true (init false false (fake_nx connected)); trace := [] |}).
Proof.
  refine (base_exception_ends_loop _ _ _ _ _ _ _ _); reflexivity.
Defined.

(** ** A batch of events *)

Lemma trigger_scaled_int16_table :
  holds_from (fun v => returns (scaled v 255)) (-32768) (Z.to_nat 65536) = true.
Proof. vm_cast_no_check (eq_refl true). Qed.

(** On 16-bit native values neither scaling raises. *)
Lemma scaled_returns (v : Z) :
  in_int16 v ->
  (exists r, scaled v 255 = Return r)
  /\ scaled v 32767 = Return (Z.quot (v * 100) 32767).
Proof.
  unfold in_int16. intros Hv. split.
  - pose proof (holds_from_spec _ _ _ trigger_scaled_int16_table v ltac:(lia)) as H.
    simpl in H. destruct (scaled v 255) as [r|e]; [by exists r | done].
  - by apply stick_scaled.
Qed.

(** With 16-bit native values and an endpoint that accepts, the call
    returns. *)
Lemma process_returns (event : Event) (w : world) :
  accepts_all (nx (self w)) ->
  in_int16 (state event) ->
  fst (_process_gamepad_event event w) = Return tt.
Proof.
  intros Hacc Hv. destruct w as [m tr].
  destruct (scaled_returns (state event) Hv) as [[r H1] H2].
  unfold scaled in H1, H2. run_event. rewrite H1, H2.
  destruct m as [dbg tm nxv idx bm sm trm p rn th]; simpl in *.
  repeat (case_match; simpl in *; simplify_eq; rewrite ?Hacc in *; try done).
Qed.

Lemma pushing_events_cons (m : ControllerMapper) (event : Event) (events : list Event) :
  pushing_events m (event :: events)
  = if pushing m event then event :: pushing_events m events else pushing_events m events.
Proof.
  unfold pushing_events. rewrite filter_cons.
  by destruct (pushing m event).
Qed.

Lemma pushing_events_with_current_input (m : ControllerMapper) (p : input_packet)
    (events : list Event) :
  pushing_events (with_current_input p m) events = pushing_events m events.
Proof. reflexivity. Qed.

Lemma for_each_event_pushes (events : list Event) : forall w : world,
  accepts_all (nx (self w)) ->
  Forall (fun event => in_int16 (state event)) events ->
  fst (for_each_event events w) = Return tt
  /\ length (pushes (trace (exec (for_each_event events) w)))
     = (length (pushes (trace w)) + length (pushing_events (self w) events))%nat.
Proof.
  induction events as [|event events IH]; intros w Hacc Hall.
  - split; [done|]. unfold pushing_events, exec. rewrite filter_nil. simpl. lia.
  - apply Forall_cons in Hall as [Hv Hall].
    pose proof (process_returns event w Hacc Hv) as Hret.
    pose proof (process_self event w) as Hself.
    pose proof (process_pushes event w) as Hpush.
    simpl. unfold exec, bind in *.
    destruct (_process_gamepad_event event w) as [[[]|e] w1]; simpl in *; [|done].
    destruct (IH w1) as [Hr Hl]; [by rewrite Hself | done |].
    unfold exec in Hl.
    rewrite Hself, pushing_events_with_current_input, Hpush in Hl.
    rewrite Hr, Hl, pushing_events_cons, length_app.
    split; [done|].
    destruct (pushing (self w) event); simpl; lia.
Qed.

(** X8: with an endpoint that accepts and native values in the 16-bit
    range, a batch is applied to its end and makes one push for each of its
    events that is a mapped button, trigger or axis event, and none for the
    others. *)
Theorem batch_pushes_once_per_mapped_event (w : world) (events : list Event) :
  accepts_all (nx (self w)) ->
  Forall (fun event => in_int16 (state event)) events ->
  fst (for_each_event events w) = Return tt
  /\ length (pushes (trace (exec (for_each_event events) w)))
     = (length (pushes (trace w)) + length (pushing_events (self w) events))%nat.
Proof. apply for_each_event_pushes. Qed.

Lemma batch_pushes_once_per_mapped_event_witness :
  length (pushes (trace (exec (for_each_event scripted_events) started_mapper))) = 4%nat.
Proof.
  refine (proj2 (batch_pushes_once_per_mapped_event started_mapper scripted_events _ _)).
  - intros n idx p. reflexivity.
  - repeat constructor; unfold in_int16; simpl; lia.
Defined.

(** ** Stopping and cleaning up *)

Lemma stop_input_processing_result (w : world) :
  stop_input_processing w
  = (Return tt,
     {| self := with_input_thread None (with_running false (self w));
        trace := trace w ++ match input_thread (self w) with
                            | Some _ => [Thread_join]
                            | None => []
                            end |}).
Proof.
  unfold stop_input_processing. unfold_monad. simpl.
  destruct w as [m tr]. destruct m as [? ? ? ? ? ? ? ? ? [th|]]; simpl; [done|].
  by rewrite app_nil_r.
Qed.

Lemma cleanup_result (w : world) :
  cleanup w
  = (Return tt,
     {| self := with_input_thread None (with_running false (self w));
        trace := (trace w ++ match input_thread (self w) with
                             | Some _ => [Thread_join]
                             | None => []
                             end)
                 ++ match controller_idx (self w) with
                    | Some idx => [Remove_controller idx]
                    | None => []
                    end |}).
Proof.
  unfold cleanup, bind. rewrite stop_input_processing_result.
  unfold get, emit, ret. simpl.
  destruct (controller_idx (self w)); simpl; [done|].
  by rewrite app_nil_r.
Qed.

(** X9: after [stop_input_processing] the running flag is false and the
    thread handle is cleared, whatever they were; a worker that reads the
    flag from then on leaves [_input_loop] without pulling from the device
    or touching anything; and stopping again changes nothing and joins
    nothing. *)
Theorem stop_is_effective (w : world) (device : list pull) :
  running (self (exec stop_input_processing w)) = false
  /\ input_thread (self (exec stop_input_processing w)) = None
  /\ _input_loop device (exec stop_input_processing w)
     = (Return Stopped, exec stop_input_processing w)
  /\ stop_input_processing (exec stop_input_processing w)
     = (Return tt, exec stop_input_processing w).
Proof.
  unfold exec. rewrite stop_input_processing_result. simpl.
  split; [done|]. split; [done|]. split.
  - by rewrite input_loop_step.
  - rewrite stop_input_processing_result. simpl. by rewrite app_nil_r.
Qed.

Lemma do_call_keeps_flag (c : call) (w : world) :
  flag_matches_worker (self w) -> flag_matches_worker (self (exec (do_call c) w)).
Proof.
  unfold flag_matches_worker. intros H.
  destruct c as [| | |event]; simpl.
  - unfold start_input_processing. unfold_monad.
    destruct w as [m tr]. destruct m as [? ? ? ? ? ? ? ? ? [th|]]; simpl in *; [done|].
    split; [by eexists | done].
  - unfold exec. rewrite stop_input_processing_result. simpl.
    split; [done | by intros [? ?]].
  - unfold exec. rewrite cleanup_result. simpl.
    split; [done | by intros [? ?]].
  - rewrite process_self. by destruct (self w).
Qed.

Lemma run_calls_keeps_flag (calls : list call) : forall w : world,
  flag_matches_worker (self w) -> flag_matches_worker (self (run_calls calls w)).
Proof.
  induction calls as [|c calls IH]; intros w H; [done|].
  simpl. apply IH. by apply do_call_keeps_flag.
Qed.

(** X10: on an object built by [__init__], after any run of start, stop,
    cleanup and event calls the running flag is true exactly when the
    object holds a worker thread, and a stop or a cleanup at that point
    leaves no worker alive: every worker started has been joined. *)
Theorem stop_leaves_no_worker (dbg tm : bool) (endpoint : Nxbt.t) (calls : list call) :
  (running (self (run_calls calls (new_world (init dbg tm endpoint)))) = true
   <-> is_Some (input_thread (self (run_calls calls (new_world (init dbg tm endpoint))))))
  /\ live_workers (trace (exec stop_input_processing
                           (run_calls calls (new_world (init dbg tm endpoint))))) 0 = 0%nat
  /\ live_workers (trace (exec cleanup
                           (run_calls calls (new_world (init dbg tm endpoint))))) 0 = 0%nat.
Proof.
  assert (Hinv : worker_invariant (run_calls calls (new_world (init dbg tm endpoint))))
    by (by apply run_calls_keeps_invariant).
  split; [|split].
  - apply run_calls_keeps_flag. unfold flag_matches_worker. simpl.
    split; [done | by intros [? ?]].
  - apply stop_keeps_invariant in Hinv. unfold worker_invariant in Hinv.
    rewrite Hinv. unfold exec. by rewrite stop_input_processing_result.
  - apply cleanup_keeps_invariant in Hinv. unfold worker_invariant in Hinv.
    rewrite Hinv. unfold exec. by rewrite cleanup_result.
Qed.

(** X11: [cleanup] on an object that never connected (no session index)
    returns without calling the endpoint. *)
Theorem cleanup_without_session (w : world) :
  controller_idx (self w) = None ->
  fst (cleanup w) = Return tt
  /\ endpoint_calls (trace (exec cleanup w)) = endpoint_calls (trace w)
  /\ controller_idx (self (exec cleanup w)) = None.
Proof.
  intros Hidx. unfold exec. rewrite cleanup_result. simpl. rewrite Hidx.
  rewrite app_nil_r, endpoint_calls_app.
  destruct (input_thread (self w)); simpl; by rewrite app_nil_r.
Qed.

Lemma cleanup_without_session_witness :
  endpoint_calls (trace (exec cleanup (exec start_input_processing started_mapper))) = [].
Proof.
  refine (proj1 (proj2 (cleanup_without_session
    (exec start_input_processing started_mapper) _))).
  reflexivity.
Defined.

(** X12: [cleanup] removes the session it holds and does not forget it:
    the index stays set, so each further [cleanup] asks the endpoint to
    remove the same session again. *)
Theorem cleanup_keeps_session_index (w : world) (idx : Z) :
  controller_idx (self w) = Some idx ->
  endpoint_calls (trace (exec cleanup w)) = endpoint_calls (trace w) ++ [Remove_controller idx]
  /\ controller_idx (self (exec cleanup w)) = Some idx
  /\ endpoint_calls (trace (exec cleanup (exec cleanup w)))
     = endpoint_calls (trace w) ++ [Remove_controller idx; Remove_controller idx].
Proof.
  intros Hidx.
  assert (Hone : forall w', controller_idx (self w') = Some idx ->
    endpoint_calls (trace (exec cleanup w'))
    = endpoint_calls (trace w') ++ [Remove_controller idx]
    /\ controller_idx (self (exec cleanup w')) = Some idx).
  { intros w' Hw'. unfold exec. rewrite cleanup_result. simpl. rewrite Hw'.
    rewrite !endpoint_calls_app.
    split; [|done]. destruct (input_thread (self w')); simpl; by rewrite ?app_nil_r. }
  destruct (Hone w Hidx) as [H1 H2].
  destruct (Hone (exec cleanup w) H2) as [H3 _].
  split; [done|]. split; [done|].
  by rewrite H3, H1, <- app_assoc.
Qed.

Lemma cleanup_keeps_session_index_witness :
  endpoint_calls (trace (exec cleanup (exec cleanup
    (exec (connect_controller 5 0) started_mapper))))
  = [Create_controller 0 0; Remove_controller 0; Remove_controller 0].
Proof.
  refine (proj2 (proj2 (cleanup_keeps_session_index
    (exec (connect_controller 5 0) started_mapper) 0 _))).
  reflexivity.
Defined.

(** ** Connecting and starting up *)

(** X13: [connect_controller] has no limit on its polls: as long as the
    endpoint shows neither connected nor crashed it sleeps and reads again,
    so after any number of undecided reads it has slept that many times
    100 ms and is still waiting. *)
Theorem connect_waits_while_undecided (w : world) (controller_type : Z) (fuel : nat) :
  test_mode (self w) = false ->
  (forall i, (i < fuel)%nat -> undecided (entry w controller_type i)) ->
  connect_controller fuel controller_type w
  = (Return Out_of_fuel, polled w controller_type fuel).
Proof.
  intros Htest Hund.
  replace fuel with (fuel + 0)%nat at 1 by lia.
  by rewrite connect_controller_polls.
Qed.

Lemma connect_waits_while_undecided_witness :
  connect_controller 2 0 started_mapper = (Return Out_of_fuel, polled started_mapper 0 2).
Proof.
  refine (connect_waits_while_undecided started_mapper 0 2 _ _).
  - reflexivity.
  - intros [|[|i]] Hi; [split; done | split; done | lia].
Defined.

Lemma main_startup_in_test_mode (fuel : nat) (controller_type : Z) (w : world) :
  test_mode (self w) = true ->
  test_mode (self (exec (main_startup fuel controller_type) w)) = true
  /\ controller_idx (self (exec (main_startup fuel controller_type) w))
     = controller_idx (self w)
  /\ endpoint_calls (trace (exec (main_startup fuel controller_type) w))
     = endpoint_calls (trace w).
Proof.
  intros Htest. unfold main_startup, start_input_processing. unfold_monad.
  destruct w as [m tr]. destruct m as [? ? ? ? ? ? ? ? ? [th|]]; simpl in *; subst; simpl;
    rewrite ?endpoint_calls_app; simpl; by rewrite ?app_nil_r.
Qed.

(** X14: a whole session in test mode (start-up, the worker on whatever the
    device yields, cleanup) makes no call to the endpoint: no session is
    created, no input is sent, none is removed. *)
Theorem test_mode_session_never_calls_endpoint (w : world) (fuel : nat)
    (controller_type : Z) (device : list pull) :
  test_mode (self w) = true ->
  controller_idx (self w) = None ->
  endpoint_calls (trace (exec cleanup (exec (_input_loop device)
                   (exec (main_startup fuel controller_type) w))))
  = endpoint_calls (trace w).
Proof.
  intros Htest Hidx.
  destruct (main_startup_in_test_mode fuel controller_type w Htest) as (Ht & Hi & Hc).
  destruct (input_loop_in_test_mode device _ Ht) as [Hs Hl].
  unfold exec at 1. rewrite cleanup_result. simpl.
  rewrite Hs, Hi, Hidx, app_nil_r, endpoint_calls_app, Hl, Hc.
  destruct (input_thread _); simpl; by rewrite app_nil_r.
Qed.

Lemma test_mode_session_never_calls_endpoint_witness :
  endpoint_calls (trace (exec cleanup (exec (_input_loop [Events scripted_events])
                   (exec (main_startup 0 0) (new_world (init false true rejecting_nx))))))
  = [].
Proof.
  refine (test_mode_session_never_calls_endpoint
    (new_world (init false true rejecting_nx)) 0 0 [Events scripted_events] _ _);
    reflexivity.
Defined.

Lemma connect_controller_connected (w : world) (controller_type : Z) (k fuel : nat) :
  test_mode (self w) = false ->
  (forall i, (i < k)%nat -> undecided (entry w controller_type i)) ->
  (k < fuel)%nat ->
  lifecycle (entry w controller_type k) = "connected" ->
  connect_controller fuel controller_type w
  = (Return (Done (created_idx w controller_type)), polled w controller_type k).
Proof.
  intros Htest Hund Hfuel Hc.
  replace fuel with (k + S (fuel - S k))%nat by lia.
  rewrite connect_controller_polls by done.
  cbn [wait_for_connection]. unfold_monad. unfold polled at 1 2. cbn [self trace].
  destruct w as [m tr]. destruct m. simpl in *.
  unfold entry, created_idx in Hc. simpl in Hc.
  by rewrite (bool_decide_eq_true_2 _ Hc).
Qed.

(** X15: [main] starts the worker only once the endpoint has reported the
    session connected: on a fresh object, with the first decided entry
    connected at read [k], the calls come in this order: create the session,
    [k] sleeps, the line on the terminal, the start of the one worker; the
    running flag is then set. *)
Theorem main_starts_worker_after_connecting (w : world) (controller_type : Z) (k fuel : nat) :
  test_mode (self w) = false ->
  input_thread (self w) = None ->
  (forall i, (i < k)%nat -> undecided (entry w controller_type i)) ->
  (k < fuel)%nat ->
  lifecycle (entry w controller_type k) = "connected" ->
  main_startup fuel controller_type w
  = (Return (Done tt),
     {| self := with_input_thread (Some input_loop_thread)
                  (with_running true (self (polled w controller_type k)));
        trace := trace w
                 ++ Create_controller controller_type (created_idx w controller_type)
                    :: replicate k (Sleep 100)
                 ++ [Print "Controller connected!"; Thread_start;
                     Print "Input processing started. Press Ctrl+C to exit."] |}).
Proof.
  intros Htest Hthread Hund Hfuel Hc.
  pose proof (connect_controller_connected w controller_type k fuel Htest Hund Hfuel Hc)
    as Hconn.
  unfold main_startup.
  unfold bind at 1. unfold get at 1. cbv beta iota.
  rewrite Htest. cbn [negb].
  unfold bind at 1. unfold bind at 1. rewrite Hconn.
  unfold start_input_processing, polled. unfold_monad. simpl.
  rewrite Hthread. simpl. do 2 f_equal.
  rewrite <- !app_assoc. simpl. by rewrite <- ?app_assoc.
Qed.

Lemma main_starts_worker_after_connecting_witness :
  fst (main_startup 5 0 started_mapper) = Return (Done tt)
  /\ running (self (exec (main_startup 5 0) started_mapper)) = true.
Proof.
  unfold exec.
  rewrite (main_starts_worker_after_connecting started_mapper 0 2 5 eq_refl eq_refl).
  - split; reflexivity.
  - intros [|[|i]] Hi; [split; done | split; done | lia].
  - lia.
  - reflexivity.
Defined.

(** ** The scaling of a stick axis *)

(** X16: on the 16-bit range the scaling of a stick axis never raises,
    stays within [-100, 100], never decreases when the native value grows,
    and sends opposite native values to opposite results (it truncates
    toward zero, so a deflection and its mirror image scale alike). *)
Theorem stick_scaling_monotone_and_odd (v v' : Z) :
  in_int16 v ->
  in_int16 v' ->
  exists a b,
    scaled v 32767 = Return a /\ scaled v' 32767 = Return b
    /\ -100 <= a <= 100
    /\ (v <= v' -> a <= b)
    /\ (v' = - v -> b = - a).
Proof.
  unfold in_int16. intros Hv Hv'.
  exists (Z.quot (v * 100) 32767), (Z.quot (v' * 100) 32767).
  rewrite !stick_scaled by done.
  split; [done|]. split; [done|]. split; [|split].
  - Z.quot_rem_to_equations. lia.
  - intros Hle. apply Z.quot_le_mono; lia.
  - intros ->. rewrite Z.mul_opp_l. apply Z.quot_opp_l. lia.
Qed.

Lemma stick_scaling_monotone_and_odd_witness :
  exists a b,
    scaled 12345 32767 = Return a /\ scaled (-12345) 32767 = Return b
    /\ -100 <= a <= 100
    /\ (12345 <= -12345 -> a <= b)
    /\ (-12345 = - 12345 -> b = - a).
Proof.
  refine (stick_scaling_monotone_and_odd 12345 (-12345) _ _);
    unfold in_int16; lia.
Defined.

(** ** What no call changes *)

Lemma do_call_keeps_configuration (c : call) (w : world) :
  same_configuration (self w) (self (exec (do_call c) w))
  /\ controller_idx (self (exec (do_call c) w)) = controller_idx (self w).
Proof.
  unfold same_configuration. destruct c as [| | |event]; simpl.
  - unfold start_input_processing. unfold_monad.
    destruct w as [m tr]. by destruct m as [? ? ? ? ? ? ? ? ? [th|]].
  - unfold exec. by rewrite stop_input_processing_result.
  - unfold exec. by rewrite cleanup_result.
  - rewrite process_self. by destruct (self w).
Qed.

(** X17: the configuration [__init__] sets up is never changed afterwards:
    over any run of start, stop, cleanup and event calls the debug and test
    flags, the endpoint, the three mapping tables and the session index are
    what they were. *)
Theorem calls_keep_configuration (calls : list call) (w : world) :
  same_configuration (self w) (self (run_calls calls w))
  /\ controller_idx (self (run_calls calls w)) = controller_idx (self w).
Proof.
  revert w. induction calls as [|c calls IH]; intros w; [done|].
  simpl. destruct (IH (exec (do_call c) w)) as [(H1 & H2 & H3 & H4 & H5 & H6) H7].
  destruct (do_call_keeps_configuration c w) as [(G1 & G2 & G3 & G4 & G5 & G6) G7].
  unfold same_configuration.
  by rewrite H1, H2, H3, H4, H5, H6, H7, G1, G2, G3, G4, G5, G6, G7.
Qed.

(** ** Invariants of the packet *)

Lemma set_button_keeps_defined (b' : Buttons.t) (v : bool) (p : input_packet) (b : Buttons.t) :
  is_Some (buttons p !! b) -> is_Some (buttons (set_button b' v p) !! b).
Proof.
  intros H. unfold set_button. simpl. rewrite lookup_insert_is_Some.
  destruct (decide (b' = b)); [by left | by right].
Qed.

Lemma packet_after_keeps_defined (m : ControllerMapper) (event : Event) (b : Buttons.t) :
  is_Some (buttons (current_input m) !! b) ->
  is_Some (buttons (packet_after m event) !! b).
Proof.
  intros H. unfold packet_after.
  repeat case_match; simplify_eq; try done;
    repeat apply set_button_keeps_defined; try done; by destruct s.
Qed.

Lemma packet_after_keeps_bounded (m : ControllerMapper) (event : Event) :
  in_int16 (state event) ->
  sticks_bounded (current_input m) ->
  sticks_bounded (packet_after m event).
Proof.
  unfold in_int16. intros Hv Hb. unfold packet_after.
  rewrite (stick_scaled _ Hv).
  assert (Hq : -100 <= Z.quot (state event * 100) 32767 <= 100)
    by (Z.quot_rem_to_equations; lia).
  repeat case_match; simplify_eq; try done;
    unfold sticks_bounded in *; simpl; try done;
    match goal with s : Sticks |- _ => destruct s end; simpl; lia.
Qed.

(** A property of the packet that every event keeps (for the calls
    allowed by [ok]) holds after any run. *)
Lemma run_calls_packet_invariant (I : input_packet -> Prop) (ok : call -> Prop) :
  (forall m event, ok (Call_process event) ->
     I (current_input m) -> I (packet_after m event)) ->
  forall (calls : list call) (w : world),
    Forall ok calls ->
    I (current_input (self w)) ->
    I (current_input (self (run_calls calls w))).
Proof.
  intros Hstep. induction calls as [|c calls IH]; intros w Hok HI; [done|].
  apply Forall_cons in Hok as [Hc Hok]. simpl. apply IH; [done|].
  destruct c as [| | |event].
  - by rewrite (proj1 (lifecycle_call_keeps_packet Call_start w ltac:(done))).
  - by rewrite (proj1 (lifecycle_call_keeps_packet Call_stop w ltac:(done))).
  - by rewrite (proj1 (lifecycle_call_keeps_packet Call_cleanup w ltac:(done))).
  - simpl. rewrite process_self. simpl. by apply Hstep.
Qed.

(** X18: no call removes a button from the packet: a button that has a
    value keeps having one over any run of start, stop, cleanup and event
    calls (assignments only overwrite). *)
Theorem buttons_stay_defined (calls : list call) (w : world) (b : Buttons.t) :
  is_Some (buttons (current_input (self w)) !! b) ->
  is_Some (buttons (current_input (self (run_calls calls w))) !! b).
Proof.
  intros H.
  apply (run_calls_packet_invariant
           (fun p => is_Some (buttons p !! b)) (fun _ => True)); [| |done].
  - intros m event _. apply packet_after_keeps_defined.
  - by apply Forall_true.
Qed.

Lemma buttons_stay_defined_witness :
  is_Some (buttons (current_input (self (run_calls
    [Call_process {| ev_type := "Absolute"; code := "ABS_HAT0Y"; state := -1 |};
     Call_start; Call_cleanup] started_mapper))) !! Buttons.HOME).
Proof.
  refine (buttons_stay_defined _ started_mapper Buttons.HOME _).
  by eexists.
Defined.

(** X19: as long as the native values that arrive are in the 16-bit range,
    all four axis values of the packet stay within [-100, 100] over any run
    of calls, though nothing in the code clamps them. *)
Theorem sticks_stay_bounded (calls : list call) (w : world) :
  sticks_bounded (current_input (self w)) ->
  Forall call_in_int16 calls ->
  sticks_bounded (current_input (self (run_calls calls w))).
Proof.
  intros Hb Hok.
  apply (run_calls_packet_invariant sticks_bounded call_in_int16); [|done|done].
  intros m event Hv. by apply packet_after_keeps_bounded.
Qed.

Lemma sticks_stay_bounded_witness :
  sticks_bounded (current_input (self (run_calls
    [Call_process {| ev_type := "Absolute"; code := "ABS_Y"; state := -32768 |};
     Call_process {| ev_type := "Absolute"; code := "ABS_RX"; state := 32767 |}]
    started_mapper))).
Proof.
  refine (sticks_stay_bounded _ started_mapper _ _).
  - unfold sticks_bounded. simpl. lia.
  - repeat constructor; unfold in_int16; simpl; lia.
Defined.

(** ** The d-pad and the next push *)

(** X20: a hat event changes the packet and sends nothing; the endpoint
    learns of the d-pad only through the push of a later event, here the
    next mapped button event, whose push carries the packet with both
    updates. *)
Theorem hat_event_waits_for_next_push (w : world) (hat key : Event) (b : Buttons.t) :
  test_mode (self w) = false ->
  ev_type hat = "Absolute" ->
  code hat = "ABS_HAT0X" \/ code hat = "ABS_HAT0Y" ->
  trigger_mappings (self w) !! code hat = None ->
  ev_type key = "Key" ->
  button_mappings (self w) !! code key = Some b ->
  pushes (trace (exec (_process_gamepad_event hat) w)) = pushes (trace w)
  /\ pushes (trace (exec (_process_gamepad_event key) (exec (_process_gamepad_event hat) w)))
     = pushes (trace w) ++
       [Set_controller_input (controller_idx (self w))
          (set_button b (state key =? 1)
             (current_input (self (exec (_process_gamepad_event hat) w))))].
Proof.
  intros Htest Habs Hcode Htrig Hkey Hmap.
  assert (Hhat : pushing (self w) hat = false).
  { unfold pushing. rewrite Htest, Habs, Htrig. simpl.
    destruct Hcode as [-> | ->]; done. }
  assert (Hpush : pushes (trace (exec (_process_gamepad_event hat) w)) = pushes (trace w)).
  { by rewrite process_pushes, Hhat, app_nil_r. }
  split; [exact Hpush|].
  rewrite process_pushes, Hpush.
  rewrite (process_self hat w). simpl.
  unfold pushing. simpl. rewrite Htest, Hkey, Hmap. simpl.
  by rewrite (packet_after_button _ key b).
Qed.

Lemma hat_event_waits_for_next_push_witness :
  pushes (trace (exec
    (_process_gamepad_event {| ev_type := "Key"; code := "BTN_SOUTH"; state := 1 |})
    (exec (_process_gamepad_event {| ev_type := "Absolute"; code := "ABS_HAT0X"; state := -1 |})
       started_mapper)))
  = [Set_controller_input None
       (set_button Buttons.B true
          (set_button Buttons.DPAD_RIGHT false
             (set_button Buttons.DPAD_LEFT true create_input_packet)))].
Proof.
  refine (eq_trans (proj2 (hat_event_waits_for_next_push started_mapper
    {| ev_type := "Absolute"; code := "ABS_HAT0X"; state := -1 |}
    {| ev_type := "Key"; code := "BTN_SOUTH"; state := 1 |} Buttons.B
    _ _ _ _ _ _)) _); try reflexivity.
  by left.
Defined.

(** ** The debug flag *)

(** X21: the debug flag changes what is logged and nothing else: with the
    flag set either way an event leaves the same packet and sends the same
    inputs to the endpoint. *)
Theorem debug_flag_only_logs (w : world) (event : Event) (d : bool) :
  current_input (self (exec (_process_gamepad_event event)
                         {| self := with_debug d (self w); trace := trace w |}))
  = current_input (self (exec (_process_gamepad_event event) w))
  /\ pushes (trace (exec (_process_gamepad_event event)
                      {| self := with_debug d (self w); trace := trace w |}))
     = pushes (trace (exec (_process_gamepad_event event) w)).
Proof.
  rewrite !process_self, !process_pushes. simpl. done.
Qed.
